(** * Mobile food delivery core: payment processing and order placement

    A shallow embedding of [MobileFoodDeliveryApp/testPayment_Processing.py]
    (classes [PaymentProcessing] and [FakePaymentGateway]) together with a
    model of the order-placement classes that the application and its tests
    import from [testOrder_Placement].

    Python dictionaries with string keys are finite maps ([gmap string _]),
    Python exceptions are an explicit error result, and the pluggable
    gateway object is a type class with one method. *)

From Stdlib Require Import ZArith QArith String Ascii List.
From Stdlib Require Import SpecFloat.
From stdpp Require Import base decidable option list strings gmap pretty.

Local Open Scope string_scope.

(** ** Python values *)

(** The values a dictionary of this program can hold: [None], booleans,
    integers, floats (IEEE-754 values, as [spec_float]) and strings. *)
Inductive value : Type :=
| VNone
| VBool (b : bool)
| VInt (n : Z)
| VFloat (f : spec_float)
| VStr (s : string).

Abbreviation dict := (gmap string value).

(** Exceptions of the program. [Exception cls msg] stands for any other
    exception class, such as one raised by an injected gateway. *)
Inductive exn : Type :=
| KeyError (key : string)
| TypeError (msg : string)
| ValueError (msg : string)
| Exception (cls msg : string).

(** The outcome of a Python call: a returned value or a raised exception. *)
Inductive pyres (A : Type) : Type :=
| Return (a : A)
| Raise (e : exn).
Arguments Return {A} a.
Arguments Raise {A} e.

(** Sequencing: an exception raised by the first call ends the body. *)
#[global] Instance pyres_bind : MBind pyres := fun A B k r =>
  match r with
  | Return a => k a
  | Raise e => Raise e
  end.

(** Truth value of an object, as tested by [not x] and [if x]. *)
Definition truthy (v : value) : bool :=
  match v with
  | VNone => false
  | VBool b => b
  | VInt n => negb (n =? 0)%Z
  | VFloat (S754_zero _) => false
  | VFloat _ => true
  | VStr s => negb (String.eqb s "")
  end.

(** [type(v).__name__]. *)
Definition type_name (v : value) : string :=
  match v with
  | VNone => "NoneType"
  | VBool _ => "bool"
  | VInt _ => "int"
  | VFloat _ => "float"
  | VStr _ => "str"
  end.

(** [len(v)]: defined on strings, a [TypeError] on the other values. *)
Definition py_len (v : value) : pyres nat :=
  match v with
  | VStr s => Return (String.length s)
  | _ => Raise (TypeError ("object of type '" ++ type_name v ++ "' has no len()"))
  end.

(** The floats [50.0] and [100.0] of the tests: 25 * 2^1 and 25 * 2^2. *)
Definition float_50 : value := VFloat (S754_finite false 25 1).
Definition float_100 : value := VFloat (S754_finite false 25 2).

(** [v == s] for a string literal [s]. *)
Definition eq_str (v : value) (s : string) : bool :=
  match v with
  | VStr t => String.eqb t s
  | _ => false
  end.

(** [d.get(key, dflt)]. *)
Definition dict_get (d : dict) (key : string) (dflt : value) : value :=
  default dflt (d !! key).

(** [sub in s] on strings. *)
Fixpoint str_contains (sub s : string) : bool :=
  String.prefix sub s ||
  match s with
  | EmptyString => false
  | String _ s' => str_contains sub s'
  end.

(** ** The gateway capability *)

(** What a gateway answers: a dictionary of texts, [status] and, on
    failure, [message]; [transaction_id] on success. *)
Abbreviation outcome := (gmap string string).

(** One recorded invocation of [process]. *)
Record call : Type := Call {
  call_method : string;
  call_details : dict;
  call_amount : value
}.

(** Any object [g] with a method [g.process(payment_method,
    payment_details, amount)]; the object may change state and may raise. *)
Class Gateway (G : Type) : Type :=
  process : G -> string -> dict -> value -> pyres outcome * G.

(** [class FakePaymentGateway]: an object without attributes. *)
Inductive FakePaymentGateway : Type := FakePaymentGateway_init.

Definition FakePaymentGateway_process
    (payment_method : string) (payment_details : dict) (amount : value)
  : pyres outcome :=
  if String.eqb payment_method "credit_card" then
    if eq_str (dict_get payment_details "card_number" VNone) "1111222233334444"
    then Return {[ "status" := "failure"; "message" := "Card declined" ]}
    else Return {[ "status" := "success"; "transaction_id" := "fake_txn_123" ]}
  else if String.eqb payment_method "paypal" then
    Return {[ "status" := "success"; "transaction_id" := "fake_txn_456" ]}
  else
    Return {[ "status" := "failure"; "message" := "Unsupported payment method" ]}.

#[global] Instance FakePaymentGateway_gateway : Gateway FakePaymentGateway :=
  fun self payment_method payment_details amount =>
    (FakePaymentGateway_process payment_method payment_details amount, self).

(** A gateway that answers with a fixed outcome, like the
    [mock.patch.object(..., return_value=...)] of the unit tests. *)
Record StubGateway : Type := Stub { stub_return : outcome }.

#[global] Instance StubGateway_gateway : Gateway StubGateway :=
  fun self _ _ _ => (Return (stub_return self), self).

(** A recording wrapper around a gateway: it delegates to the wrapped
    object and appends every invocation to [calls]. *)
Record Spy (G : Type) : Type := MkSpy {
  spied : G;
  calls : list call
}.
Arguments MkSpy {G} spied calls.
Arguments spied {G} s.
Arguments calls {G} s.

#[global] Instance Spy_gateway {G} `{Gateway G} : Gateway (Spy G) :=
  fun self payment_method payment_details amount =>
    let '(response, g') :=
      process (spied self) payment_method payment_details amount in
    (response,
     MkSpy g' (calls self ++ [Call payment_method payment_details amount])).

(** ** PaymentProcessing *)

Record PaymentProcessing (G : Type) : Type := MkPaymentProcessing {
  available_gateways : list string;
  gateway : G
}.
Arguments MkPaymentProcessing {G} available_gateways gateway.
Arguments available_gateways {G} p.
Arguments gateway {G} p.

(** [PaymentProcessing(gateway)] with an injected gateway object. *)
Definition PaymentProcessing_init {G} (gateway : G) : PaymentProcessing G :=
  MkPaymentProcessing ["credit_card"; "paypal"] gateway.

(** [PaymentProcessing()]: [gateway or FakePaymentGateway()] with
    [gateway=None]. *)
Definition PaymentProcessing_default : PaymentProcessing FakePaymentGateway :=
  PaymentProcessing_init FakePaymentGateway_init.

Definition required_fields : list string :=
  ["card_number"; "expiry_date"; "cvv"].

(** The loop over [required_fields]: [false] when it returns [False] at
    some field (absent, or present with a false truth value), [true]
    when it runs to its end. *)
Fixpoint fields_filled (details : dict) (fields : list string) : bool :=
  match fields with
  | [] => true
  | field :: rest =>
      match details !! field with
      | None => false
      | Some v => if negb (truthy v) then false else fields_filled details rest
      end
  end.

Definition validate_credit_card (details : dict) : pyres bool :=
  if negb (fields_filled details required_fields) then Return false else
  let card_number := dict_get details "card_number" (VStr "") in
  let cvv := dict_get details "cvv" (VStr "") in
  n ← py_len card_number;
  if negb (n =? 16)%nat then Return false else
  m ← py_len cvv;
  if negb (m =? 3)%nat then Return false else
  Return true.

Definition validate_payment_method {G} (self : PaymentProcessing G)
    (payment_method : string) (payment_details : dict) : pyres bool :=
  if negb (bool_decide (payment_method ∈ available_gateways self)) then
    Raise (ValueError "Invalid payment method")
  else if String.eqb payment_method "credit_card" then
    ok ← validate_credit_card payment_details;
    if negb ok then Raise (ValueError "Invalid credit card details")
    else Return true
  else Return true.

(** The two branches after the gateway has answered. *)
Definition payment_message (response : outcome) : pyres string :=
  match response !! "status" with
  | None => Raise (KeyError "status")
  | Some status =>
      if String.eqb status "success" then
        Return "Payment successful, Order confirmed"
      else
        match response !! "message" with
        | None => Raise (KeyError "message")
        | Some message => Return ("Payment failed: " ++ message)
        end
  end.

(** [process_payment] returns its result and the object after the call
    (the gateway may have changed state). *)
Definition process_payment {G} `{Gateway G} (self : PaymentProcessing G)
    (order : dict) (payment_method : string) (payment_details : dict)
  : pyres string * PaymentProcessing G :=
  if negb (bool_decide (payment_method ∈ available_gateways self)) then
    (Return "Error: Invalid payment method", self)
  else
    let '(response, g') :=
      process (gateway self) payment_method payment_details
        (dict_get order "total_amount" (VInt 0)) in
    (response ← response; payment_message response,
     MkPaymentProcessing (available_gateways self) g').

(** ** Order placement

    The classes [Cart], [UserProfile], [RestaurantMenu], [PaymentMethod] and
    [OrderPlacement] are imported by [main.py] and by the system and
    integration tests from the module [testOrder_Placement]. *)

(** Modelled from the spec: the [CartLine] of [testOrder_Placement], a
    name, a unit price (a decimal, here a rational) and a quantity. *)
Record CartLine : Type := MkLine {
  name : string;
  unit_price : Q;
  quantity : Z
}.

(** Modelled from the spec: the derived [subtotal = unit_price * quantity]
    of a [CartLine] of [testOrder_Placement]. *)
Definition line_subtotal (l : CartLine) : Q :=
  (unit_price l * inject_Z (quantity l))%Q.

(** Modelled from the spec: the [Cart] of [testOrder_Placement], an
    ordered collection of lines. *)
Record Cart : Type := MkCart { lines : list CartLine }.

(** Modelled from the spec: [Cart()] of [testOrder_Placement], a cart
    without lines. *)
Definition Cart_init : Cart := MkCart [].

(** Modelled from the spec: the update of [Cart.add_item] in
    [testOrder_Placement]. A line with the same name gets its quantity
    incremented and its price replaced by the latest one; otherwise a new
    line goes to the end. The result carries the line's new quantity. *)
Fixpoint add_line (item : string) (price : Q) (qty : Z) (ls : list CartLine)
  : list CartLine * Z :=
  match ls with
  | [] => ([MkLine item price qty], qty)
  | l :: rest =>
      if String.eqb (name l) item then
        (MkLine item price (quantity l + qty) :: rest, (quantity l + qty)%Z)
      else
        let '(rest', q) := add_line item price qty rest in (l :: rest', q)
  end.

(** Modelled from the spec: what the confirmation message of
    [Cart.add_item] in [testOrder_Placement] identifies, the item and its
    new quantity. *)
Record Confirmation : Type := MkConfirmation {
  confirmed_item : string;
  confirmed_quantity : Z
}.

(** Modelled from the spec: [Cart.add_item(name, unit_price, quantity)] of
    [testOrder_Placement]. The spec words the bounds on [quantity] and
    [unit_price] as obligations of the call and names no failure for them:
    the model has no check, and the theorems carry the bounds. *)
Definition add_item (c : Cart) (item : string) (price : Q) (qty : Z)
  : Confirmation * Cart :=
  let '(ls, q) := add_line item price qty (lines c) in
  (MkConfirmation item q, MkCart ls).

(** Modelled from the spec: [Cart.remove_item(name)] of
    [testOrder_Placement]; the boolean signals whether a line was removed. *)
Definition remove_item (c : Cart) (item : string) : bool * Cart :=
  (existsb (fun l => String.eqb (name l) item) (lines c),
   MkCart (List.filter (fun l => negb (String.eqb (name l) item)) (lines c))).

(** Modelled from the spec: the line views [{name, quantity, subtotal}]
    that [Cart.view_cart] of [testOrder_Placement] yields. *)
Record LineView : Type := MkView {
  view_name : string;
  view_quantity : Z;
  view_subtotal : Q
}.

(** Modelled from the spec: [Cart.view_cart()] of [testOrder_Placement]. *)
Definition view_cart (c : Cart) : list LineView :=
  List.map (fun l => MkView (name l) (quantity l) (line_subtotal l)) (lines c).

(** Modelled from the spec: the cart subtotal of [testOrder_Placement],
    the sum of the line subtotals, 0 for an empty cart. *)
Definition cart_subtotal (c : Cart) : Q :=
  fold_right Qplus 0%Q (List.map line_subtotal (lines c)).

(** A sequence of [add_item] calls for one name, each a price and a
    quantity. *)
Definition add_items (c : Cart) (item : string) (adds : list (Q * Z)) : Cart :=
  fold_left (fun c a => snd (add_item c item (fst a) (snd a))) adds c.

(** The lines of a cart that carry a given name. *)
Definition lines_named (item : string) (c : Cart) : list CartLine :=
  List.filter (fun l => String.eqb (name l) item) (lines c).

(** The sum of the quantities of a sequence of additions, and the price
    of its last one. *)
Definition total_quantity (adds : list (Q * Z)) : Z :=
  fold_right Z.add 0%Z (List.map snd adds).

Definition last_price (adds : list (Q * Z)) : Q :=
  List.last (List.map fst adds) 0%Q.

(** The invariant of the data model: quantities at least 1, prices not
    negative, no two lines with one name. *)
Definition cart_wf (c : Cart) : Prop :=
  Forall (fun l => (1 <= quantity l)%Z /\ (0 <= unit_price l)%Q) (lines c)
  /\ NoDup (List.map name (lines c)).

(** Modelled from the spec: [OrderRecord] of [testOrder_Placement]. *)
Record OrderRecord : Type := MkOrderRecord {
  record_id : Z;
  record_items : list string;
  record_total : Q
}.

(** Modelled from the spec: [UserProfile] of [testOrder_Placement]; an
    absent address is [None]. *)
Record UserProfile : Type := MkUserProfile {
  delivery_address : option string;
  order_history : list OrderRecord
}.

(** Modelled from the spec: [UserProfile(delivery_address)] of
    [testOrder_Placement], with an empty history. *)
Definition UserProfile_init (address : string) : UserProfile :=
  MkUserProfile (Some address) [].

(** Modelled from the spec: [RestaurantMenu] of [testOrder_Placement]. *)
Record RestaurantMenu : Type := MkMenu { available_items : list string }.

(** Modelled from the spec: [PaymentMethod] of [testOrder_Placement], a
    marker without fields. *)
Inductive PaymentMethod : Type := PaymentMethod_init.

(** Modelled from the spec: [TotalsBreakdown] of [testOrder_Placement]. *)
Record TotalsBreakdown : Type := MkTotals {
  subtotal : Q;
  tax : Q;
  delivery_fee : Q;
  total : Q
}.

(** Modelled from the spec: what the spec leaves to configuration in
    [testOrder_Placement]: the tax rate and the flat delivery fee, neither
    negative since every amount of a [TotalsBreakdown] is a non-negative
    decimal; how an order identifier and an estimated delivery time are
    produced; the texts of the failure messages. *)
Class Policy : Type := MkPolicy {
  tax_rate : Q;
  flat_delivery_fee : Q;
  tax_rate_nonneg : (0 <= tax_rate)%Q;
  flat_delivery_fee_nonneg : (0 <= flat_delivery_fee)%Q;
  new_order_id : list OrderRecord -> Z;
  estimate_delivery : Z -> Z;
  empty_cart_message : string;
  missing_address_message : string;
  payment_rejected_message : string
}.

(** A policy to evaluate the model with: 10% tax, a fee of 5, consecutive
    identifiers, delivery 30 minutes after the order. *)
Definition sample_policy : Policy := {|
  tax_rate := 1 # 10;
  flat_delivery_fee := 5;
  tax_rate_nonneg := ltac:(discriminate);
  flat_delivery_fee_nonneg := ltac:(discriminate);
  new_order_id := fun history => (Z.of_nat (List.length history) + 1)%Z;
  estimate_delivery := fun now => (now + 30)%Z;
  empty_cart_message := "Cart is empty";
  missing_address_message := "Delivery address is missing";
  payment_rejected_message := "Payment rejected"
|}.

(** Modelled from the spec: the result dictionaries [{success, message,
    order_id, estimated_delivery}] of [testOrder_Placement]; a key that is
    not set is [None]. *)
Record Result : Type := MkResult {
  success : bool;
  message : option string;
  order_id : option Z;
  estimated_delivery : option Z
}.

(** Modelled from the spec: the result [{success: false, message}] of
    [testOrder_Placement]. *)
Definition failure (msg : string) : Result :=
  MkResult false (Some msg) None None.

(** Modelled from the spec: [OrderPlacement] of [testOrder_Placement]. It
    binds one cart, one profile and one menu; [payment_processing] is the
    optional collaborator that can reject a payment, absent in the minimal
    flow. The record is the store of the objects the checkout flow shares:
    a caller's change of the cart or of the address is a change of the
    field. *)
Record OrderPlacement : Type := MkOrderPlacement {
  cart : Cart;
  user_profile : UserProfile;
  restaurant_menu : RestaurantMenu;
  special_instructions : option string;
  payment_processing : option (PaymentMethod -> option dict -> bool)
}.

(** Modelled from the spec: [OrderPlacement(cart, user_profile,
    restaurant_menu)] of [testOrder_Placement], the minimal flow: no
    instructions yet and no payment collaborator. *)
Definition OrderPlacement_init (c : Cart) (u : UserProfile) (m : RestaurantMenu)
  : OrderPlacement :=
  MkOrderPlacement c u m None None.

(** Modelled from the spec: the address test of
    [OrderPlacement.validate_order] in [testOrder_Placement]; the address
    is usable when it is present and not empty. *)
Definition address_valid (u : UserProfile) : bool :=
  match delivery_address u with
  | None => false
  | Some a => negb (String.eqb a "")
  end.

Section OrderPlacementModel.
Context `{Policy}.

(** Modelled from the spec: [OrderPlacement.validate_order()] of
    [testOrder_Placement]. *)
Definition validate_order (o : OrderPlacement) : Result :=
  match lines (cart o) with
  | [] => failure empty_cart_message
  | _ :: _ =>
      if address_valid (user_profile o) then MkResult true None None None
      else failure missing_address_message
  end.

(** Modelled from the spec: the totals of
    [OrderPlacement.proceed_to_checkout()] in [testOrder_Placement]. *)
Definition totals_of (sub : Q) : TotalsBreakdown :=
  let t := (tax_rate * sub)%Q in
  MkTotals sub t flat_delivery_fee (sub + t + flat_delivery_fee)%Q.

(** Modelled from the spec: the summary [{items, total_info,
    delivery_address}] that [proceed_to_checkout] of [testOrder_Placement]
    returns. *)
Record CheckoutSummary : Type := MkSummary {
  items : list LineView;
  total_info : TotalsBreakdown;
  summary_address : option string
}.

(** Modelled from the spec: [OrderPlacement.proceed_to_checkout()] of
    [testOrder_Placement], a projection of the current cart. *)
Definition proceed_to_checkout (o : OrderPlacement) : CheckoutSummary :=
  MkSummary (view_cart (cart o))
            (totals_of (cart_subtotal (cart o)))
            (delivery_address (user_profile o)).

(** Modelled from the spec: the [OrderRecord] that [confirm_order] of
    [testOrder_Placement] appends to the history: a new identifier, the
    names of the cart's lines and the total of the checkout. *)
Definition new_record (o : OrderPlacement) : OrderRecord :=
  MkOrderRecord (new_order_id (order_history (user_profile o)))
                (List.map name (lines (cart o)))
                (total (total_info (proceed_to_checkout o))).

(** Modelled from the spec: [OrderPlacement.confirm_order(payment_method,
    payment_details=None)] of [testOrder_Placement], at clock reading
    [now]. The order is validated again; a wired-in collaborator may
    reject the payment; otherwise the order is recorded in the history.
    The cart is retained. *)
Definition confirm_order (o : OrderPlacement) (now : Z)
    (payment_method : PaymentMethod) (payment_details : option dict)
  : Result * OrderPlacement :=
  let v := validate_order o in
  if negb (success v) then (v, o) else
  let authorized :=
    match payment_processing o with
    | None => true
    | Some accepts => accepts payment_method payment_details
    end in
  if negb authorized then (failure payment_rejected_message, o) else
  let r := new_record o in
  let u := user_profile o in
  (MkResult true (Some "Order confirmed") (Some (record_id r))
            (Some (estimate_delivery now)),
   MkOrderPlacement (cart o)
     (MkUserProfile (delivery_address u) (order_history u ++ [r]))
     (restaurant_menu o) (special_instructions o) (payment_processing o)).

End OrderPlacementModel.

(** An order to evaluate the model with (end-to-end scenario 2), and one
    with an empty cart (scenario 1). *)
Definition sample_order : OrderPlacement :=
  OrderPlacement_init (snd (add_item Cart_init "Burger" (8 # 1) 2))
    (UserProfile_init "123 Main St") (MkMenu ["Burger"; "Pizza"; "Salad"]).

Definition empty_order : OrderPlacement :=
  OrderPlacement_init Cart_init (UserProfile_init "123 Main St")
    (MkMenu ["Burger"; "Pizza"; "Salad"]).

(** ** Statements of the specification *)

Definition declined_card : string := "1111222233334444".

Definition success_message : string := "Payment successful, Order confirmed".

(** A failure message that contains the text "Card declined". *)
Definition card_declined (r : pyres string) : Prop :=
  exists msg, r = Return msg
    /\ String.prefix "Payment failed: " msg = true
    /\ str_contains "Card declined" msg = true.

Definition is_digit (c : ascii) : bool :=
  (48 <=? nat_of_ascii c)%nat && (nat_of_ascii c <=? 57)%nat.

Definition sixteen_digits (s : string) : Prop :=
  String.length s = 16%nat
  /\ forallb is_digit (list_ascii_of_string s) = true.

(** Some required field is not a key of [details]. *)
Definition field_absent (details : dict) : Prop :=
  exists f, f ∈ required_fields /\ details !! f = None.

(** Some required field is present and holds the empty string. *)
Definition field_empty (details : dict) : Prop :=
  exists f, f ∈ required_fields /\ details !! f = Some (VStr "").

(** The length of the text under [f], for a field that holds a string. *)
Definition field_length (details : dict) (f : string) : option nat :=
  match details !! f with
  | Some (VStr s) => Some (String.length s)
  | _ => None
  end.

(** The required fields that are present hold strings. *)
Definition str_fields (details : dict) : Prop :=
  forall f v, f ∈ required_fields -> details !! f = Some v ->
    exists s, v = VStr s.

(** The specification's sentence on [validate_credit_card], read on
    details whose fields are strings: [False] when a field is absent or a
    length is wrong, [True] otherwise. *)
Definition validate_credit_card_claim : Prop :=
  forall details : dict, str_fields details ->
    (field_absent details
     \/ field_length details "card_number" <> Some 16%nat
     \/ field_length details "cvv" <> Some 3%nat ->
     validate_credit_card details = Return false)
    /\ (~ field_absent details ->
        field_length details "card_number" = Some 16%nat ->
        field_length details "cvv" = Some 3%nat ->
        validate_credit_card details = Return true).

(** The specification's sentence on [process_payment], for any gateway:
    every outcome whose status is not "success" gives a failure message
    that embeds the reported message. The gateway is wrapped in a [Spy]
    to count its invocations. *)
Definition process_payment_claim : Prop :=
  forall (G : Type) (HG : Gateway G) (g : G)
         (order : dict) (m : string) (details : dict),
    let self := PaymentProcessing_init (MkSpy g []) in
    let amount := dict_get order "total_amount" (VInt 0) in
    let run := process_payment self order m details in
    (m ∉ ["credit_card"; "paypal"] ->
     run = (Return "Error: Invalid payment method", self))
    /\ (m ∈ ["credit_card"; "paypal"] ->
        calls (gateway (snd run)) = [Call m details amount]
        /\ forall response : outcome,
             fst (process g m details amount) = Return response ->
             (response !! "status" = Some "success" ->
              fst run = Return success_message)
             /\ (response !! "status" <> Some "success" ->
                 exists reason,
                   fst run = Return ("Payment failed: " ++ reason)
                   /\ forall msg, response !! "message" = Some msg ->
                                  reason = msg)).

(** The [TypeError] of [len] on a value that is not a string. *)
Definition len_error (v : value) : exn :=
  TypeError ("object of type '" ++ type_name v ++ "' has no len()").

(** A caller that makes several payments with one [PaymentProcessing]
    object, each an order, a method and details, and keeps every result,
    an exception included. *)
Fixpoint process_all {G} `{Gateway G} (self : PaymentProcessing G)
    (requests : list (dict * string * dict))
  : list (pyres string) * PaymentProcessing G :=
  match requests with
  | [] => ([], self)
  | (order, payment_method, payment_details) :: rest =>
      let '(r, self') :=
        process_payment self order payment_method payment_details in
      let '(rs, self'') := process_all self' rest in
      (r :: rs, self'')
  end.

(** The invocation of the gateway that a request leads to, when its
    method is supported. *)
Definition request_call (request : dict * string * dict) : call :=
  let '(order, payment_method, payment_details) := request in
  Call payment_method payment_details (dict_get order "total_amount" (VInt 0)).

Definition request_supported (request : dict * string * dict) : bool :=
  bool_decide (snd (fst request) ∈ ["credit_card"; "paypal"]).

(** Details with the card number given as an integer and not as a
    text. *)
Definition integer_card_details : dict :=
  {[ "card_number" := VInt 1234567812345678;
     "expiry_date" := VStr "12/25";
     "cvv" := VStr "123" ]}.

(** ** The managers of [main.py] *)

Module AddressManager.

(** [class AddressManager]: the object holds the profile it edits. *)
Record t : Type := Mk { user_profile : UserProfile }.

Definition get_address (self : t) : option string :=
  delivery_address (user_profile self).

(** [update_address(new_addr)], for the text of the entry field: an empty
    text is refused, any other text replaces the address. *)
Definition update_address (self : t) (new_addr : string) : bool * t :=
  if negb (String.eqb new_addr "") then
    (true, Mk (MkUserProfile (Some new_addr)
                 (order_history (user_profile self))))
  else (false, self).

(** Several calls in a row. *)
Definition update_all (self : t) (addrs : list string) : t :=
  fold_left (fun s a => snd (update_address s a)) addrs self.

End AddressManager.

(** ** The order tracker of [test_uat.py] *)

(** A [datetime] is the number of microseconds since the first instant
    of the calendar; [datetime.now()] is an argument [now] of the methods
    that read the clock. *)

(** [(a - b).seconds] for two datetimes: the seconds field of the
    normalised [timedelta], between 0 and 86399, days and microseconds
    left out. *)
Definition timedelta_seconds (a b : Z) : Z :=
  (((a - b) / 1000000) mod 86400)%Z.

Module OrderTracker.

(** An entry of [status_history]. *)
Record change : Type := MkChange {
  from : string;
  to : string;
  timestamp : Z
}.

Record t : Type := Mk {
  order_id : string;
  status : string;
  status_history : list change;
  last_update : Z;
  update_interval : Z
}.

(** [OrderTracker(order_id)] at clock reading [now]. *)
Definition init (now : Z) (order_id : string) : t :=
  Mk order_id "Preparing" [] now 10.

Definition update_status (now : Z) (self : t) (new_status : string)
  : bool * t :=
  (true,
   Mk (order_id self) new_status
      (status_history self ++ [MkChange (status self) new_status now])%list
      now (update_interval self)).

Definition statuses : list string := ["Preparing"; "On the Way"; "Delivered"].

(** [l.index(x)]: the first position of [x], [None] for the [ValueError]
    of an element that is not in the list. *)
Fixpoint index (x : string) (l : list string) : option nat :=
  match l with
  | [] => None
  | y :: rest =>
      if String.eqb y x then Some 0%nat else S <$> index x rest
  end.

(** What [simulate_order_progress] ends with: a returned boolean, the
    [ValueError] of [statuses.index] for the status [x], or the
    [IndexError] of [statuses[current_index + 1]]. *)
Inductive ended : Type :=
| Returned (b : bool)
| NotInList (x : string)
| IndexError.

Definition simulate_order_progress (now : Z) (self : t) : ended * t :=
  match index (status self) statuses with
  | None => (NotInList (status self), self)
  | Some current_index =>
      if (Z.of_nat current_index <? Z.of_nat (List.length statuses) - 1)%Z then
        match statuses !! (current_index + 1)%nat with
        | Some next => (Returned true, snd (update_status now self next))
        | None => (IndexError, self)
        end
      else (Returned false, self)
  end.

Definition check_update_frequency (now : Z) (self : t) : bool :=
  (timedelta_seconds now (last_update self) <=? update_interval self)%Z.

(** Calls of [simulate_order_progress] in a row, one per clock reading,
    as the loop of [test_order_status_stages] makes them. *)
Definition simulate_all (nows : list Z) (self : t) : t :=
  fold_left (fun s now => snd (simulate_order_progress now s)) nows self.

(** The trackers a program can reach from the constructor with the two
    methods that change state. *)
Inductive reachable : t -> Prop :=
| reach_init now oid : reachable (init now oid)
| reach_update now self s :
    reachable self -> reachable (snd (update_status now self s))
| reach_simulate now self :
    reachable self -> reachable (snd (simulate_order_progress now self)).

(** The history read as a path: from [start], every entry leaves the
    status the previous one reached; the result is the status at the
    end, [None] when an entry does not fit. *)
Fixpoint path (start : string) (h : list change) : option string :=
  match h with
  | [] => Some start
  | c :: rest => if String.eqb (from c) start then path (to c) rest else None
  end.

End OrderTracker.

(** What every reachable tracker satisfies: the history is a path from
    "Preparing" to the status, the interval is 10, and the last entry
    agrees with [last_update] and [status]. *)
Definition tracker_invariant (self : OrderTracker.t) : Prop :=
  OrderTracker.path "Preparing" (OrderTracker.status_history self)
  = Some (OrderTracker.status self)
  /\ OrderTracker.update_interval self = 10%Z
  /\ (forall c, List.last (List.map Some (OrderTracker.status_history self)) None
                = Some c ->
                OrderTracker.timestamp c = OrderTracker.last_update self
                /\ OrderTracker.to c = OrderTracker.status self).

(** ** The order scheduler of [test_uat.py] *)

Module OrderScheduler.

(** An entry of [scheduled_orders]. *)
Record order : Type := MkOrder {
  order_id : string;
  user_id : string;
  items : list string;
  scheduled_time : Z;
  created_at : Z;
  status : string
}.

Record t : Type := Mk {
  scheduled_orders : list order;
  confirmation_times : list spec_float
}.

Definition init : t := Mk [] [].

(** What one call of [schedule_order] reads from outside: the three
    readings of [datetime.now()] in the order of the calls, and the
    number drawn by [random.randint(1000, 9999)]. The pause of
    [time.sleep(random.uniform(0.5, 1.5))] only moves the third reading.
    A refused call takes the first two readings and draws nothing. *)
Record world : Type := MkWorld {
  start_time : Z;
  current_time : Z;
  confirmation_time : Z;
  draw : Z
}.

Section Library.

(** Functions of the Python library: [strftime] with its format,
    [timedelta.total_seconds()] on a difference in microseconds, and the
    format [:.2f] of a float. *)
Variable strftime : string -> Z -> string.
Variable total_seconds : Z -> spec_float.
Variable format_2f : spec_float -> string.

Definition schedule_order (w : world) (self : t) (user_id : string)
    (items : list string) (delivery_time : Z) : dict * t :=
  if (delivery_time <=? current_time w)%Z then
    ({[ "success" := VBool false;
        "message" := VStr "Delivery time must be in the future" ]}, self)
  else
    let order :=
      MkOrder ("SCH" ++ pretty (draw w)) user_id items delivery_time
              (current_time w) "Scheduled" in
    let time_taken := total_seconds (confirmation_time w - start_time w) in
    ({[ "success" := VBool true;
        "order_id" := VStr (order_id order);
        "scheduled_time" := VStr (strftime "%Y-%m-%d %H:%M" delivery_time);
        "confirmation_sent_at" :=
          VStr (strftime "%Y-%m-%d %H:%M:%S" (confirmation_time w));
        "time_to_confirm" := VStr (format_2f time_taken ++ " seconds") ]},
     Mk (scheduled_orders self ++ [order])%list
        (confirmation_times self ++ [time_taken])%list).

(** The schedulers a program can reach from the constructor. *)
Inductive reachable : t -> Prop :=
| reach_init : reachable init
| reach_schedule w self user_id items delivery_time :
    reachable self ->
    reachable (snd (schedule_order w self user_id items delivery_time)).

End Library.

End OrderScheduler.

(** * Theorems *)

(** ** Strings *)

Lemma append_cons (a : ascii) (s t : string) :
  String a s ++ t = String a (s ++ t).
Proof. reflexivity. Qed.

Lemma prefix_spec (p s : string) :
  String.prefix p s = true <-> exists post, s = p ++ post.
Proof.
  revert s; induction p as [|a p IH]; intros s.
  - split; [intros _; exists s; reflexivity | intros _; destruct s; reflexivity].
  - destruct s as [|b s]; simpl.
    + split; [discriminate | intros [post Hpost]; discriminate].
    + destruct (Ascii.ascii_dec a b) as [->|Hab].
      * rewrite IH. split; intros [post Hpost]; exists post.
        -- rewrite Hpost. reflexivity.
        -- rewrite append_cons in Hpost. congruence.
      * split; [discriminate|].
        intros [post Hpost]. rewrite append_cons in Hpost. congruence.
Qed.

Lemma str_contains_spec (sub s : string) :
  str_contains sub s = true <-> exists pre post, s = pre ++ sub ++ post.
Proof.
  induction s as [|a s IH]; cbn [str_contains].
  - rewrite orb_false_r, prefix_spec. split.
    + intros [post Hpost]. exists "", post. exact Hpost.
    + intros [pre [post Hs]]. destruct pre as [|b pre].
      * exists post. exact Hs.
      * rewrite append_cons in Hs. discriminate.
  - rewrite orb_true_iff, prefix_spec, IH. split.
    + intros [[post Hs] | [pre [post Hs]]].
      * exists "", post. exact Hs.
      * exists (String a pre), post. rewrite append_cons, Hs. reflexivity.
    + intros [pre [post Hs]]. destruct pre as [|b pre].
      * left. exists post. exact Hs.
      * right. exists pre, post. rewrite append_cons in Hs. congruence.
Qed.

(** ** Supported methods *)

Lemma supported_iff {G} (g : G) (m : string) :
  m ∈ available_gateways (PaymentProcessing_init g)
  <-> m = "credit_card" \/ m = "paypal".
Proof.
  simpl. rewrite !elem_of_cons, elem_of_nil. tauto.
Qed.

Lemma process_payment_unsupported {G} `{Gateway G} (self : PaymentProcessing G)
    (order : dict) (m : string) (details : dict) :
  m ∉ available_gateways self ->
  process_payment self order m details
  = (Return "Error: Invalid payment method", self).
Proof.
  intros Hm. unfold process_payment.
  rewrite bool_decide_eq_false_2 by exact Hm. reflexivity.
Qed.

Lemma process_payment_supported {G} `{Gateway G} (self : PaymentProcessing G)
    (order : dict) (m : string) (details : dict) :
  m ∈ available_gateways self ->
  process_payment self order m details
  = let r := process (gateway self) m details
               (dict_get order "total_amount" (VInt 0)) in
    (fst r ≫= payment_message,
     MkPaymentProcessing (available_gateways self) (snd r)).
Proof.
  intros Hm. unfold process_payment.
  rewrite bool_decide_eq_true_2 by exact Hm. simpl.
  destruct (process _ _ _ _) as [r g']. reflexivity.
Qed.

(** ** The fake gateway *)

Lemma payment_message_declined :
  payment_message {[ "status" := "failure"; "message" := "Card declined" ]}
  = Return "Payment failed: Card declined".
Proof. vm_compute. reflexivity. Qed.

Lemma payment_message_success (txn : string) :
  payment_message {[ "status" := "success"; "transaction_id" := txn ]}
  = Return success_message.
Proof.
  unfold payment_message.
  rewrite lookup_insert_eq. reflexivity.
Qed.

Lemma process_payment_credit_card (order details : dict) :
  fst (process_payment PaymentProcessing_default order "credit_card" details)
  = if eq_str (dict_get details "card_number" VNone) declined_card
    then Return "Payment failed: Card declined"
    else Return success_message.
Proof.
  rewrite process_payment_supported by (apply supported_iff; auto).
  cbn [fst snd gateway PaymentProcessing_default PaymentProcessing_init
       process FakePaymentGateway_gateway].
  unfold FakePaymentGateway_process, declined_card. simpl String.eqb. cbv iota.
  destruct (eq_str _ _); cbn [mbind pyres_bind].
  - apply payment_message_declined.
  - apply payment_message_success.
Qed.

Lemma process_payment_paypal (order details : dict) :
  fst (process_payment PaymentProcessing_default order "paypal" details)
  = Return success_message.
Proof.
  rewrite process_payment_supported by (apply supported_iff; auto).
  cbn [fst snd gateway PaymentProcessing_default PaymentProcessing_init
       process FakePaymentGateway_gateway].
  unfold FakePaymentGateway_process. simpl String.eqb. cbv iota.
  cbn [mbind pyres_bind]. apply payment_message_success.
Qed.

Lemma eq_str_true (v : value) (s : string) :
  eq_str v s = true <-> v = VStr s.
Proof.
  destruct v; simpl; try (split; [discriminate | intros; discriminate]).
  rewrite String.eqb_eq. split; congruence.
Qed.

Lemma card_number_declined (details : dict) :
  eq_str (dict_get details "card_number" VNone) declined_card = true
  <-> details !! "card_number" = Some (VStr declined_card).
Proof.
  rewrite eq_str_true. unfold dict_get.
  destruct (details !! "card_number") as [v|]; simpl.
  - split; congruence.
  - split; discriminate.
Qed.

(** ** The default gateway and the reserved card number *)

(** C1. With the default [FakePaymentGateway], [process_payment(order,
    "credit_card", details)] returns a failure message containing "Card
    declined" exactly when [details] holds the card number
    "1111222233334444" (the message is then "Payment failed: Card
    declined"); any other 16-digit card number gives the success message,
    and so does the method "paypal", whatever the details. *)
Theorem fake_gateway_declines_reserved_card (order details : dict) :
  let credit :=
    fst (process_payment PaymentProcessing_default order "credit_card" details) in
  (card_declined credit
   <-> details !! "card_number" = Some (VStr "1111222233334444"))
  /\ (details !! "card_number" = Some (VStr "1111222233334444") ->
      credit = Return "Payment failed: Card declined")
  /\ (forall s, details !! "card_number" = Some (VStr s) ->
        sixteen_digits s -> s <> "1111222233334444" ->
        credit = Return "Payment successful, Order confirmed")
  /\ fst (process_payment PaymentProcessing_default order "paypal" details)
     = Return "Payment successful, Order confirmed".
Proof.
  cbv zeta. rewrite process_payment_credit_card, process_payment_paypal.
  pose proof (card_number_declined details) as Hcard.
  unfold declined_card in Hcard.
  destruct (eq_str _ _) eqn:E; fold declined_card in E.
  - assert (Hd : details !! "card_number" = Some (VStr "1111222233334444"))
      by (apply Hcard; reflexivity).
    repeat split; try reflexivity.
    + intros _. exact Hd.
    + intros _. exists "Payment failed: Card declined".
      repeat split; reflexivity.
    + intros s Hs _ Hne. rewrite Hd in Hs. congruence.
  - assert (Hd : details !! "card_number" <> Some (VStr "1111222233334444"))
      by (intros Hd; apply Hcard in Hd; discriminate).
    repeat split; try reflexivity.
    + intros [msg [Hmsg [_ Hin]]]. exfalso.
      injection Hmsg as <-. vm_compute in Hin. discriminate.
    + intros Hd'. contradiction.
    + intros Hd'. contradiction.
Qed.

Lemma fake_gateway_declines_reserved_card_witness :
  fst (process_payment PaymentProcessing_default
         {[ "total_amount" := float_100 ]}
         "credit_card"
         {[ "card_number" := VStr "1234567812345678";
            "expiry_date" := VStr "12/25";
            "cvv" := VStr "123" ]})
  = Return "Payment successful, Order confirmed".
Proof.
  refine (proj1 (proj2 (proj2
    (fake_gateway_declines_reserved_card _ _))) "1234567812345678" _ _ _).
  - vm_compute. reflexivity.
  - split; vm_compute; reflexivity.
  - discriminate.
Defined.

(** End-to-end scenario 3 of the specification. *)
Example scenario_declined_card :
  fst (process_payment PaymentProcessing_default
         {[ "total_amount" := float_100 ]}
         "credit_card"
         {[ "card_number" := VStr "1111222233334444";
            "expiry_date" := VStr "12/25";
            "cvv" := VStr "123" ]})
  = Return "Payment failed: Card declined".
Proof. vm_compute. reflexivity. Qed.

(** C9. [process_payment] does not validate the details: the details
    [{card_number: "1234567812345678"}], without expiry date and CVV, are
    rejected by [validate_credit_card], and [process_payment] with the
    default gateway still answers with the success message for them, for
    every order. *)
Theorem process_payment_skips_validation :
  exists details : dict,
    details = {[ "card_number" := VStr "1234567812345678" ]}
    /\ validate_credit_card details = Return false
    /\ forall order : dict,
         fst (process_payment PaymentProcessing_default order
                "credit_card" details)
         = Return "Payment successful, Order confirmed".
Proof.
  eexists. split; [reflexivity|]. split.
  - vm_compute. reflexivity.
  - intros order. rewrite process_payment_credit_card.
    vm_compute. reflexivity.
Qed.

(** ** Invocations of the gateway *)

Lemma spy_process {G} `{Gateway G} (s : Spy G) (m : string) (details : dict)
    (amount : value) :
  process s m details amount
  = (fst (process (spied s) m details amount),
     MkSpy (snd (process (spied s) m details amount))
           (calls s ++ [Call m details amount])).
Proof.
  unfold process at 1, Spy_gateway.
  destruct (process (spied s) m details amount) as [r g']. reflexivity.
Qed.

(** A supported method reaches the gateway once, with the order's total. *)
Lemma process_payment_calls_once {G} `{Gateway G} (g : G)
    (order : dict) (m : string) (details : dict) :
  m ∈ ["credit_card"; "paypal"] ->
  let amount := dict_get order "total_amount" (VInt 0) in
  let run := process_payment (PaymentProcessing_init (MkSpy g [])) order m details in
  calls (gateway (snd run)) = [Call m details amount]
  /\ spied (gateway (snd run)) = snd (process g m details amount)
  /\ fst run = fst (process g m details amount) ≫= payment_message.
Proof.
  intros Hm. cbv zeta.
  rewrite process_payment_supported by exact Hm.
  cbn [gateway PaymentProcessing_init]. rewrite spy_process.
  cbn [fst snd gateway calls spied app]. auto.
Qed.

(** The spy does not change what [process_payment] returns. *)
Lemma process_payment_spy {G} `{Gateway G} (g : G)
    (order : dict) (m : string) (details : dict) :
  fst (process_payment (PaymentProcessing_init (MkSpy g [])) order m details)
  = fst (process_payment (PaymentProcessing_init g) order m details).
Proof.
  destruct (decide (m ∈ ["credit_card"; "paypal"])) as [Hm|Hm].
  - rewrite !process_payment_supported by exact Hm.
    cbn [gateway PaymentProcessing_init]. rewrite spy_process. reflexivity.
  - rewrite !process_payment_unsupported by exact Hm. reflexivity.
Qed.

Lemma dict_get_missing (d : dict) (key : string) (dflt : value) :
  d !! key = None -> dict_get d key dflt = dflt.
Proof. unfold dict_get. intros ->. reflexivity. Qed.

(** C10. An order without the key "total_amount" never makes
    [process_payment] fail: for every supported method the gateway is
    charged the amount 0, the call behaves as for the same order with a
    total of 0 written out, and with the default gateway the result is a
    returned message, not an exception. *)
Theorem process_payment_missing_total {G} `{Gateway G} (g : G)
    (order : dict) (m : string) (details : dict) :
  order !! "total_amount" = None ->
  m ∈ ["credit_card"; "paypal"] ->
  calls (gateway (snd (process_payment (PaymentProcessing_init (MkSpy g []))
                         order m details)))
  = [Call m details (VInt 0)]
  /\ process_payment (PaymentProcessing_init g) order m details
     = process_payment (PaymentProcessing_init g)
         (<["total_amount" := VInt 0]> order) m details
  /\ exists msg : string,
       fst (process_payment PaymentProcessing_default order m details)
       = Return msg.
Proof.
  intros Hnone Hm. split; [|split].
  - destruct (process_payment_calls_once g order m details Hm) as [Hc _].
    rewrite Hc, (dict_get_missing _ _ _ Hnone). reflexivity.
  - rewrite !process_payment_supported by exact Hm.
    rewrite (dict_get_missing _ _ _ Hnone).
    unfold dict_get. rewrite lookup_insert_eq. reflexivity.
  - apply elem_of_cons in Hm as [->|Hm].
    + rewrite process_payment_credit_card.
      destruct (eq_str _ _); eauto.
    + apply elem_of_cons in Hm as [->|Hm]; [|inversion Hm].
      rewrite process_payment_paypal. eauto.
Qed.

Lemma process_payment_missing_total_witness :
  calls (gateway (snd (process_payment
                         (PaymentProcessing_init (MkSpy FakePaymentGateway_init []))
                         ∅ "paypal" ∅)))
  = [Call "paypal" ∅ (VInt 0)]
  /\ process_payment (PaymentProcessing_init FakePaymentGateway_init) ∅ "paypal" ∅
     = process_payment (PaymentProcessing_init FakePaymentGateway_init)
         (<["total_amount" := VInt 0]> ∅) "paypal" ∅
  /\ exists msg : string,
       fst (process_payment PaymentProcessing_default ∅ "paypal" ∅)
       = Return msg.
Proof.
  apply (process_payment_missing_total FakePaymentGateway_init ∅ "paypal" ∅).
  - reflexivity.
  - apply elem_of_cons. right. apply elem_of_cons. left. reflexivity.
Defined.

(** ** Validation of the method *)

(** The answers of [validate_payment_method] when [validate_credit_card]
    returns: the invalid-method error when [method] is neither
    "credit_card" nor "paypal"; for "credit_card" with details for which
    [validate_credit_card] returns [False], the invalid-card error; [True]
    exactly when the method is supported and, for "credit_card",
    [validate_credit_card] returns [True]. [False] is never returned. *)
Theorem validate_payment_method_spec {G} (g : G) (m : string) (details : dict) :
  let self := PaymentProcessing_init g in
  (m ∉ ["credit_card"; "paypal"] ->
   validate_payment_method self m details
   = Raise (ValueError "Invalid payment method"))
  /\ (m = "credit_card" -> validate_credit_card details = Return false ->
      validate_payment_method self m details
      = Raise (ValueError "Invalid credit card details"))
  /\ (validate_payment_method self m details = Return true
      <-> m ∈ ["credit_card"; "paypal"]
          /\ (m = "credit_card" -> validate_credit_card details = Return true))
  /\ validate_payment_method self m details <> Return false.
Proof.
  cbv zeta. unfold validate_payment_method.
  cbn [available_gateways PaymentProcessing_init].
  destruct (decide (m ∈ ["credit_card"; "paypal"])) as [Hm|Hm].
  - rewrite (bool_decide_eq_true_2 _ Hm). cbn [negb].
    destruct (String.eqb_spec m "credit_card") as [->|Hne].
    + destruct (validate_credit_card details) as [[|]|e]; cbn;
        repeat split; try tauto; try congruence; try discriminate;
        intros [_ Hv]; specialize (Hv eq_refl); discriminate.
    + repeat split; try tauto; try congruence; try discriminate.
  - rewrite (bool_decide_eq_false_2 _ Hm). cbn [negb].
    repeat split; try tauto; try congruence; try discriminate.
    intros ->. exfalso. apply Hm. apply elem_of_cons. left. reflexivity.
Qed.

Lemma validate_payment_method_spec_witness :
  validate_payment_method (PaymentProcessing_init FakePaymentGateway_init)
    "bitcoin"
    {[ "card_number" := VStr "1234567812345678";
       "expiry_date" := VStr "12/25"; "cvv" := VStr "123" ]}
  = Raise (ValueError "Invalid payment method").
Proof.
  apply (proj1 (validate_payment_method_spec FakePaymentGateway_init "bitcoin" _)).
  intros Hin. apply elem_of_cons in Hin as [Hin|Hin]; [discriminate|].
  apply elem_of_cons in Hin as [Hin|Hin]; [discriminate|]. inversion Hin.
Defined.

(** An exception of [validate_credit_card] leaves
    [validate_payment_method] as it is: there is no handler around the
    call. *)
Lemma validate_payment_method_propagates {G} (g : G) (details : dict)
    (e : exn) :
  validate_credit_card details = Raise e ->
  validate_payment_method (PaymentProcessing_init g) "credit_card" details
  = Raise e.
Proof.
  intros He. unfold validate_payment_method.
  cbn [available_gateways PaymentProcessing_init].
  rewrite bool_decide_eq_true_2 by (apply elem_of_cons; auto).
  cbn [negb]. rewrite String.eqb_refl, He. reflexivity.
Qed.

(** C4. The docstring of [validate_payment_method] promises [True] for
    valid details and a [ValueError] otherwise. For "credit_card" with
    the card number given as the integer 1234567812345678 the details are
    not valid ([validate_credit_card] does not return [True]), and the
    call ends neither in [True] nor in the invalid-card [ValueError]: the
    [TypeError] of [len] leaves [validate_credit_card] and
    [validate_payment_method] unhandled, for every gateway. *)
Theorem validate_payment_method_integer_card :
  validate_credit_card integer_card_details
  = Raise (TypeError "object of type 'int' has no len()")
  /\ forall (G : Type) (g : G),
       validate_payment_method (PaymentProcessing_init g) "credit_card"
         integer_card_details
       = Raise (TypeError "object of type 'int' has no len()")
       /\ validate_payment_method (PaymentProcessing_init g) "credit_card"
            integer_card_details
          <> Raise (ValueError "Invalid credit card details")
       /\ validate_payment_method (PaymentProcessing_init g) "credit_card"
            integer_card_details
          <> Return true.
Proof.
  assert (Hv : validate_credit_card integer_card_details
               = Raise (TypeError "object of type 'int' has no len()"))
    by (vm_compute; reflexivity).
  split; [exact Hv|]. intros G g.
  rewrite (validate_payment_method_propagates g _ _ Hv).
  repeat split; discriminate.
Qed.

(** ** Validation of the card details *)

(** The loop over the required fields runs to its end exactly when every
    field is present with a true truth value. *)
Lemma fields_filled_spec (details : dict) (fields : list string) :
  fields_filled details fields = true
  <-> forall f, f ∈ fields ->
        exists v, details !! f = Some v /\ truthy v = true.
Proof.
  induction fields as [|field rest IH]; cbn [fields_filled].
  - split; [intros _ f Hf; inversion Hf | reflexivity].
  - destruct (details !! field) as [v|] eqn:E.
    + destruct (truthy v) eqn:T; cbn [negb].
      * rewrite IH. split.
        -- intros Hrest f Hf. apply elem_of_cons in Hf as [->|Hf]; eauto.
        -- intros Hall f Hf. apply Hall. apply elem_of_cons. auto.
      * split; [discriminate|]. intros Hall.
        destruct (Hall field) as [w [Hw Tw]];
          [apply elem_of_cons; auto|]. congruence.
    + split; [discriminate|]. intros Hall.
      destruct (Hall field) as [w [Hw _]];
        [apply elem_of_cons; auto|]. congruence.
Qed.

Lemma validate_credit_card_absent (details : dict) :
  field_absent details -> validate_credit_card details = Return false.
Proof.
  intros [f [Hf Habs]]. unfold validate_credit_card.
  destruct (fields_filled details required_fields) eqn:E; [|reflexivity].
  destruct (proj1 (fields_filled_spec _ _) E f Hf) as [v [Hv _]]. congruence.
Qed.

(** On three present strings the answer is a conjunction of five tests. *)
Lemma validate_credit_card_strings (details : dict) (c e v : string) :
  details !! "card_number" = Some (VStr c) ->
  details !! "expiry_date" = Some (VStr e) ->
  details !! "cvv" = Some (VStr v) ->
  validate_credit_card details
  = Return (negb (String.eqb c "") && negb (String.eqb e "")
            && negb (String.eqb v "")
            && (String.length c =? 16)%nat && (String.length v =? 3)%nat).
Proof.
  intros Hc He Hv. unfold validate_credit_card, required_fields, dict_get.
  cbn [fields_filled]. rewrite Hc, He, Hv.
  cbn [truthy default from_option id py_len mbind pyres_bind].
  destruct (String.eqb c ""), (String.eqb e ""), (String.eqb v "");
    cbn [negb andb]; try reflexivity.
  destruct (String.length c =? 16)%nat, (String.length v =? 3)%nat;
    reflexivity.
Qed.

Lemma str_fields_lookup (details : dict) (f : string) :
  str_fields details -> f ∈ required_fields ->
  details !! f = None \/ exists s, details !! f = Some (VStr s).
Proof.
  intros Hstr Hf. destruct (details !! f) as [v|] eqn:E; [right|left; reflexivity].
  destruct (Hstr f v Hf E) as [s ->]. exists s. reflexivity.
Qed.

(** C3, as amended. For details whose fields hold strings,
    [validate_credit_card] returns [False] when one of "card_number",
    "expiry_date", "cvv" is absent or empty, or when the card number's
    length is not 16 or the CVV's length is not 3, and [True] otherwise. *)
Theorem validate_credit_card_spec (details : dict) :
  str_fields details ->
  (field_absent details \/ field_empty details
   \/ field_length details "card_number" <> Some 16%nat
   \/ field_length details "cvv" <> Some 3%nat ->
   validate_credit_card details = Return false)
  /\ (~ field_absent details -> ~ field_empty details ->
      field_length details "card_number" = Some 16%nat ->
      field_length details "cvv" = Some 3%nat ->
      validate_credit_card details = Return true).
Proof.
  intros Hstr.
  assert (Hin : forall f, f ∈ required_fields ->
            details !! f = None \/ exists s, details !! f = Some (VStr s))
    by (intros f Hf; apply str_fields_lookup; assumption).
  assert (Hreq : "card_number" ∈ required_fields
                 /\ "expiry_date" ∈ required_fields
                 /\ "cvv" ∈ required_fields).
  { unfold required_fields. rewrite !elem_of_cons. tauto. }
  destruct Hreq as [Rc [Re Rv]].
  destruct (Hin _ Rc) as [Hc|[c Hc]];
    [split; [intros _|intros Habs; exfalso; apply Habs; eexists; eauto];
     apply validate_credit_card_absent; eexists; eauto|].
  destruct (Hin _ Re) as [He|[e He]];
    [split; [intros _|intros Habs; exfalso; apply Habs; eexists; eauto];
     apply validate_credit_card_absent; eexists; eauto|].
  destruct (Hin _ Rv) as [Hv|[v Hv]];
    [split; [intros _|intros Habs; exfalso; apply Habs; eexists; eauto];
     apply validate_credit_card_absent; eexists; eauto|].
  rewrite (validate_credit_card_strings details c e v Hc He Hv).
  unfold field_length. rewrite Hc, Hv.
  assert (Hempty : forall f s, f ∈ required_fields ->
            details !! f = Some (VStr s) ->
            String.eqb s "" = true -> field_empty details).
  { intros f s Hf Hs Heq. apply String.eqb_eq in Heq as ->. exists f. auto. }
  split.
  - intros [Habs|[Hemp|[Hlen|Hlen]]].
    + destruct Habs as [f [Hf Hn]].
      unfold required_fields in Hf.
      repeat (apply elem_of_cons in Hf as [->|Hf]; [congruence|]).
      inversion Hf.
    + destruct Hemp as [f [Hf Hs]].
      unfold required_fields in Hf.
      repeat (apply elem_of_cons in Hf as [->|Hf];
              [rewrite Hs in *;
               repeat match goal with
                      | H : Some _ = Some _ |- _ => injection H as <-
                      end;
               cbn [String.eqb negb andb];
               rewrite ?andb_false_r; reflexivity|]).
      inversion Hf.
    + destruct (Nat.eqb_spec (String.length c) 16) as [E|E];
        [congruence|]. rewrite ?andb_false_r. reflexivity.
    + destruct (Nat.eqb_spec (String.length v) 3) as [E|E];
        [congruence|]. rewrite ?andb_false_r. reflexivity.
  - intros _ Hemp Hlc Hlv.
    injection Hlc as Hlc. injection Hlv as Hlv. rewrite Hlc, Hlv.
    destruct (String.eqb c "") eqn:Ec; [exfalso; eauto|].
    destruct (String.eqb e "") eqn:Ee; [exfalso; eauto|].
    destruct (String.eqb v "") eqn:Ev; [exfalso; eauto|].
    reflexivity.
Qed.

Lemma validate_credit_card_spec_witness :
  validate_credit_card
    {[ "card_number" := VStr "1234567812345678";
       "expiry_date" := VStr "12/25"; "cvv" := VStr "12" ]}
  = Return false.
Proof.
  refine (proj1 (validate_credit_card_spec _ _) _).
  - intros f v Hf. unfold required_fields in Hf.
    repeat (apply elem_of_cons in Hf as [->|Hf];
            [vm_compute; intros [= <-]; eexists; reflexivity|]).
    inversion Hf.
  - right. right. right. vm_compute. discriminate.
Defined.

(** C3, as the specification states it, fails: with a card number of 16
    characters, a CVV of 3 and an expiry date that is present but empty,
    all three fields are present and both lengths are right, and the
    answer is [False]. *)
Lemma validate_credit_card_claim_fails : ~ validate_credit_card_claim.
Proof.
  intros Hclaim.
  pose (details := ({[ "card_number" := VStr "1234567812345678";
                       "expiry_date" := VStr "";
                       "cvv" := VStr "123" ]} : dict)).
  assert (Hstr : str_fields details).
  { intros f v Hf. unfold required_fields in Hf.
    repeat (apply elem_of_cons in Hf as [->|Hf];
            [vm_compute; intros [= <-]; eexists; reflexivity|]).
    inversion Hf. }
  destruct (Hclaim details Hstr) as [_ Htrue].
  assert (Hres : validate_credit_card details = Return false)
    by (vm_compute; reflexivity).
  rewrite Htrue in Hres; [discriminate| |vm_compute; reflexivity
                                        |vm_compute; reflexivity].
  intros [f [Hf Hn]]. unfold required_fields in Hf.
  repeat (apply elem_of_cons in Hf as [->|Hf];
          [vm_compute in Hn; discriminate|]).
  inversion Hf.
Qed.

(** ** The protocol between [process_payment] and the gateway *)

Lemma payment_message_status_success (response : outcome) :
  response !! "status" = Some "success" ->
  payment_message response = Return success_message.
Proof. intros Hs. unfold payment_message. rewrite Hs. reflexivity. Qed.

Lemma payment_message_failure (response : outcome) (status msg : string) :
  response !! "status" = Some status -> status <> "success" ->
  response !! "message" = Some msg ->
  payment_message response = Return ("Payment failed: " ++ msg).
Proof.
  intros Hs Hne Hm. unfold payment_message. rewrite Hs, Hm.
  destruct (String.eqb_spec status "success"); [contradiction|reflexivity].
Qed.

(** A failure outcome without a message ends in a [KeyError]. *)
Lemma payment_message_no_message (response : outcome) (status : string) :
  response !! "status" = Some status -> status <> "success" ->
  response !! "message" = None ->
  payment_message response = Raise (KeyError "message").
Proof.
  intros Hs Hne Hm. unfold payment_message. rewrite Hs, Hm.
  destruct (String.eqb_spec status "success"); [contradiction|reflexivity].
Qed.

(** C2, as amended. A method other than "credit_card" and "paypal" gives
    "Error: Invalid payment method" and the gateway is not invoked (the
    object, with its record of calls, is unchanged). Otherwise the gateway
    is invoked exactly once, with the method, the details and the order's
    total (0 when absent); an outcome with status "success" gives the
    success message, and an outcome with another status and a reported
    message gives "Payment failed: " followed by that message. *)
Theorem process_payment_protocol {G} `{Gateway G} (g : G)
    (order : dict) (m : string) (details : dict) :
  let self := PaymentProcessing_init (MkSpy g []) in
  let amount := dict_get order "total_amount" (VInt 0) in
  let run := process_payment self order m details in
  (m ∉ ["credit_card"; "paypal"] ->
   run = (Return "Error: Invalid payment method", self))
  /\ (m ∈ ["credit_card"; "paypal"] ->
      calls (gateway (snd run)) = [Call m details amount]
      /\ forall response : outcome,
           fst (process g m details amount) = Return response ->
           (response !! "status" = Some "success" ->
            fst run = Return "Payment successful, Order confirmed")
           /\ (forall status msg,
                 response !! "status" = Some status ->
                 status <> "success" ->
                 response !! "message" = Some msg ->
                 fst run = Return ("Payment failed: " ++ msg))).
Proof.
  cbv zeta. split.
  - intros Hm. apply process_payment_unsupported. exact Hm.
  - intros Hm.
    destruct (process_payment_calls_once g order m details Hm)
      as [Hcalls [_ Hres]].
    split; [exact Hcalls|].
    intros response Hresp. rewrite Hres, Hresp. cbn [mbind pyres_bind].
    split.
    + apply payment_message_status_success.
    + intros status msg. apply payment_message_failure.
Qed.

Lemma process_payment_protocol_witness :
  fst (process_payment
         (PaymentProcessing_init (MkSpy FakePaymentGateway_init []))
         {[ "total_amount" := float_100 ]} "credit_card"
         {[ "card_number" := VStr "1111222233334444" ]})
  = Return ("Payment failed: " ++ "Card declined").
Proof.
  refine (proj2 (proj2 (proj2
    (process_payment_protocol FakePaymentGateway_init
       {[ "total_amount" := float_100 ]} "credit_card"
       {[ "card_number" := VStr "1111222233334444" ]}) _)
    {[ "status" := "failure"; "message" := "Card declined" ]} _)
    "failure" "Card declined" _ _ _).
  - apply elem_of_cons. left. reflexivity.
  - vm_compute. reflexivity.
  - vm_compute. reflexivity.
  - discriminate.
  - vm_compute. reflexivity.
Defined.

(** C2, as the specification states it, fails: a gateway that answers
    [{"status": "failure"}], with no message, makes [process_payment]
    raise [KeyError] instead of returning a failure message. *)
Lemma process_payment_claim_fails : ~ process_payment_claim.
Proof.
  intros Hclaim.
  pose (g := Stub {[ "status" := "failure" ]}).
  destruct (Hclaim StubGateway _ g ∅ "paypal" ∅) as [_ Hsup].
  destruct Hsup as [_ Hout].
  { apply elem_of_cons. right. apply elem_of_cons. left. reflexivity. }
  destruct (Hout {[ "status" := "failure" ]} eq_refl) as [_ Hfail].
  destruct Hfail as [reason [Hres _]].
  { vm_compute. discriminate. }
  vm_compute in Hres. discriminate.
Qed.

(** The run behind the counterexample. *)
Example process_payment_message_less_failure :
  fst (process_payment (PaymentProcessing_init (Stub {[ "status" := "failure" ]}))
         {[ "total_amount" := float_50 ]} "paypal" ∅)
  = Raise (KeyError "message").
Proof. vm_compute. reflexivity. Qed.

(** The mocked gateways of the unit tests. *)
Example test_process_payment_success :
  fst (process_payment (PaymentProcessing_init (Stub {[ "status" := "success" ]}))
         {[ "total_amount" := float_100 ]} "credit_card"
         {[ "card_number" := VStr "1234567812345678";
            "expiry_date" := VStr "12/25"; "cvv" := VStr "123" ]})
  = Return "Payment successful, Order confirmed".
Proof. vm_compute. reflexivity. Qed.

(** ** The cart *)

Lemma add_line_named (item : string) (p : Q) (q : Z) (ls : list CartLine) :
  List.filter (fun l => String.eqb (name l) item) (fst (add_line item p q ls))
  = match List.filter (fun l => String.eqb (name l) item) ls with
    | [] => [MkLine item p q]
    | l0 :: rest => MkLine item p (quantity l0 + q) :: rest
    end.
Proof.
  induction ls as [|l rest IH]; cbn [add_line fst List.filter name].
  - rewrite String.eqb_refl. reflexivity.
  - destruct (String.eqb (name l) item) eqn:E.
    + cbn [fst List.filter name]. rewrite String.eqb_refl. reflexivity.
    + destruct (add_line item p q rest) as [rest' q'] eqn:A.
      cbn [fst List.filter] in *. rewrite E. exact IH.
Qed.

Lemma add_item_named (c : Cart) (item : string) (p : Q) (q : Z) :
  lines_named item (snd (add_item c item p q))
  = match lines_named item c with
    | [] => [MkLine item p q]
    | l0 :: rest => MkLine item p (quantity l0 + q) :: rest
    end.
Proof.
  unfold lines_named, add_item. rewrite <- add_line_named.
  destruct (add_line item p q (lines c)) as [ls q']. reflexivity.
Qed.

(** Lines with another name are left as they are. *)
Lemma add_line_others (item other : string) (p : Q) (q : Z) (ls : list CartLine) :
  other <> item ->
  List.filter (fun l => String.eqb (name l) other) (fst (add_line item p q ls))
  = List.filter (fun l => String.eqb (name l) other) ls.
Proof.
  intros Hne.
  assert (Hio : String.eqb item other = false)
    by (apply String.eqb_neq; congruence).
  induction ls as [|l rest IH]; cbn [add_line fst List.filter name].
  - rewrite Hio. reflexivity.
  - destruct (String.eqb (name l) item) eqn:E.
    + cbn [fst List.filter name]. rewrite Hio.
      apply String.eqb_eq in E. rewrite E, Hio. reflexivity.
    + destruct (add_line item p q rest) as [rest' q'] eqn:A.
      cbn [fst List.filter] in *. rewrite IH. reflexivity.
Qed.

Lemma add_line_names (item : string) (p : Q) (q : Z) (ls : list CartLine) :
  List.map name (fst (add_line item p q ls))
  = if existsb (fun l => String.eqb (name l) item) ls
    then List.map name ls else (List.map name ls ++ [item])%list.
Proof.
  induction ls as [|l rest IH]; cbn [add_line fst List.map existsb app name].
  - reflexivity.
  - destruct (String.eqb (name l) item) eqn:E; cbn [orb].
    + apply String.eqb_eq in E. cbn [fst List.map name]. congruence.
    + destruct (add_line item p q rest) as [rest' q'] eqn:A.
      cbn [fst List.map] in *. rewrite IH.
      destruct (existsb _ rest); reflexivity.
Qed.

Lemma add_line_bounds (item : string) (p : Q) (q : Z) (ls : list CartLine) :
  (1 <= q)%Z -> (0 <= p)%Q ->
  Forall (fun l => (1 <= quantity l)%Z /\ (0 <= unit_price l)%Q) ls ->
  Forall (fun l => (1 <= quantity l)%Z /\ (0 <= unit_price l)%Q)
         (fst (add_line item p q ls)).
Proof.
  intros Hq Hp. induction 1 as [|l rest [Hl Hlp] Hrest IH];
    cbn [add_line fst].
  - constructor; [split; assumption | constructor].
  - destruct (String.eqb (name l) item).
    + cbn [fst]. constructor; [|assumption].
      cbn [quantity unit_price]. split; [lia | assumption].
    + destruct (add_line item p q rest) as [rest' q'].
      cbn [fst] in *. constructor; [split; assumption | assumption].
Qed.

(** [add_item] keeps the invariant of the cart. *)
Lemma add_item_wf (c : Cart) (item : string) (p : Q) (q : Z) :
  (1 <= q)%Z -> (0 <= p)%Q -> cart_wf c -> cart_wf (snd (add_item c item p q)).
Proof.
  intros Hq Hp [Hb Hn]. unfold cart_wf, add_item.
  pose proof (add_line_bounds item p q (lines c) Hq Hp Hb) as Hb'.
  pose proof (add_line_names item p q (lines c)) as Hn'.
  destruct (add_line item p q (lines c)) as [ls q'].
  cbn [fst snd lines] in *. split; [exact Hb'|].
  rewrite Hn'. destruct (existsb _ (lines c)) eqn:E; [exact Hn|].
  apply NoDup_app. split; [exact Hn|]. split; [|apply NoDup_singleton].
  intros x Hx Hx'. apply list_elem_of_singleton in Hx'. subst x.
  apply list_elem_of_In, in_map_iff in Hx as [l [Hl Hin]].
  assert (existsb (fun l => String.eqb (name l) item) (lines c) = true).
  { apply existsb_exists. exists l. split; [exact Hin|].
    apply String.eqb_eq. exact Hl. }
  congruence.
Qed.

Lemma last_cons_default {A} (x d : A) (l : list A) :
  List.last (x :: l) d = List.last l x.
Proof.
  revert x d. induction l as [|y l IH]; intros x d; [reflexivity|].
  change (List.last (x :: y :: l) d) with (List.last (y :: l) d).
  rewrite (IH y d), (IH y x). reflexivity.
Qed.

Lemma add_items_cons (c : Cart) (item : string) (a : Q * Z)
    (adds : list (Q * Z)) :
  add_items c item (a :: adds)
  = add_items (snd (add_item c item (fst a) (snd a))) item adds.
Proof. reflexivity. Qed.

(** Further additions to the one line of a name: the quantities add up
    and the latest price stays. *)
Lemma add_items_existing (item : string) (adds : list (Q * Z)) :
  forall (c : Cart) (l0 : CartLine),
    lines_named item c = [l0] ->
    lines_named item (add_items c item adds)
    = [MkLine item (List.last (List.map fst adds) (unit_price l0))
              (quantity l0 + total_quantity adds)].
Proof.
  induction adds as [|a rest IH]; intros c l0 Hc.
  - cbn [add_items fold_left List.map List.last total_quantity fold_right].
    rewrite Hc, Z.add_0_r.
    assert (Hin : In l0 (lines_named item c)) by (rewrite Hc; left; reflexivity).
    apply filter_In in Hin as [_ Hname]. apply String.eqb_eq in Hname.
    destruct l0 as [n p q]. cbn in *. subst n. reflexivity.
  - rewrite add_items_cons.
    rewrite (IH _ (MkLine item (fst a) (quantity l0 + snd a))).
    + cbn [unit_price quantity List.map total_quantity fold_right].
      rewrite last_cons_default. fold (total_quantity rest).
      rewrite Z.add_assoc. reflexivity.
    + rewrite add_item_named, Hc. reflexivity.
Qed.

Lemma total_quantity_nonneg (adds : list (Q * Z)) :
  Forall (fun a => (1 <= snd a)%Z /\ (0 <= fst a)%Q) adds ->
  (0 <= total_quantity adds)%Z.
Proof.
  induction 1 as [|a rest [Ha _] _ IH]; cbn [total_quantity List.map fold_right].
  - lia.
  - fold (total_quantity rest). lia.
Qed.

Lemma lines_named_fresh (item : string) (c : Cart) :
  item ∉ List.map name (lines c) -> lines_named item c = [].
Proof.
  intros Hfresh. unfold lines_named.
  destruct (List.filter _ (lines c)) as [|l rest] eqn:E; [reflexivity|].
  exfalso. apply Hfresh.
  assert (Hin : In l (List.filter (fun l => String.eqb (name l) item) (lines c)))
    by (rewrite E; left; reflexivity).
  apply filter_In in Hin as [Hin Hname]. apply String.eqb_eq in Hname.
  apply list_elem_of_In, in_map_iff. exists l. auto.
Qed.

(** C8. After a sequence of [add_item] calls for one name, each with a
    quantity of at least 1 and a price that is not negative, on a cart
    that had no line of that name, the cart holds exactly one line for
    the name; its quantity is the sum of the added quantities, its price
    the price of the last call, and its subtotal that price times the
    total quantity. *)
Theorem add_items_same_name (c : Cart) (item : string) (adds : list (Q * Z)) :
  item ∉ List.map name (lines c) ->
  adds <> [] ->
  Forall (fun a => (1 <= snd a)%Z /\ (0 <= fst a)%Q) adds ->
  exists l : CartLine,
    lines_named item (add_items c item adds) = [l]
    /\ name l = item
    /\ quantity l = total_quantity adds
    /\ unit_price l = last_price adds
    /\ line_subtotal l = (last_price adds * inject_Z (total_quantity adds))%Q
    /\ (1 <= quantity l)%Z.
Proof.
  intros Hfresh Hne Hvalid.
  destruct adds as [|a rest]; [contradiction|].
  inversion Hvalid as [|? ? [Ha _] Hrest]; subst.
  pose proof (total_quantity_nonneg rest Hrest) as Hpos.
  exists (MkLine item (last_price (a :: rest)) (total_quantity (a :: rest))).
  split; [|cbn [name quantity unit_price];
           repeat split; cbn [total_quantity List.map fold_right];
           fold (total_quantity rest); lia].
  rewrite add_items_cons.
  rewrite (add_items_existing item rest _ (MkLine item (fst a) (snd a))).
  - unfold last_price. cbn [List.map unit_price quantity].
    rewrite last_cons_default. reflexivity.
  - rewrite add_item_named, (lines_named_fresh _ _ Hfresh). reflexivity.
Qed.

Lemma add_items_same_name_witness :
  exists l : CartLine,
    lines_named "Pizza" (add_items Cart_init "Pizza" [(10 # 1, 2%Z); (12 # 1, 3%Z)])
    = [l]
    /\ name l = "Pizza"
    /\ quantity l = 5%Z
    /\ unit_price l = 12 # 1
    /\ line_subtotal l = ((12 # 1) * inject_Z 5)%Q
    /\ (1 <= quantity l)%Z.
Proof.
  apply (add_items_same_name Cart_init "Pizza" [(10 # 1, 2%Z); (12 # 1, 3%Z)]).
  - intros Hin. inversion Hin.
  - discriminate.
  - repeat constructor; cbn; try lia; discriminate.
Defined.

(** A cart built by valid additions keeps the invariant. *)
Lemma add_items_wf (item : string) (adds : list (Q * Z)) :
  Forall (fun a => (1 <= snd a)%Z /\ (0 <= fst a)%Q) adds ->
  forall c : Cart, cart_wf c -> cart_wf (add_items c item adds).
Proof.
  induction 1 as [|a rest [Hq Hp] _ IH]; intros c Hc; [exact Hc|].
  rewrite add_items_cons. apply IH. apply add_item_wf; assumption.
Qed.

(** End-to-end scenario 5 of the specification. *)
Example scenario_add_then_remove :
  view_cart (snd (remove_item (snd (add_item Cart_init "Pizza" (10 # 1) 2)) "Pizza"))
  = [].
Proof. reflexivity. Qed.

(** ** Order placement *)

Section OrderPlacementProperties.
Context `{Policy}.

Lemma address_valid_iff (u : UserProfile) :
  address_valid u = true
  <-> exists a, delivery_address u = Some a /\ a <> "".
Proof.
  unfold address_valid. destruct (delivery_address u) as [a|].
  - destruct (String.eqb_spec a ""); cbn [negb].
    + split; [discriminate|]. intros [b [Hb Hne]]. congruence.
    + split; [eauto|reflexivity].
  - split; [discriminate|]. intros [b [Hb _]]. discriminate.
Qed.

Lemma validate_order_empty_cart (o : OrderPlacement) :
  lines (cart o) = [] -> validate_order o = failure empty_cart_message.
Proof. unfold validate_order. intros ->. reflexivity. Qed.

Lemma validate_order_no_address (o : OrderPlacement) :
  address_valid (user_profile o) = false ->
  success (validate_order o) = false
  /\ is_Some (message (validate_order o)).
Proof.
  unfold validate_order. intros ->.
  destruct (lines (cart o)); cbn; eauto.
Qed.

Lemma validate_order_valid (o : OrderPlacement) :
  lines (cart o) <> [] -> address_valid (user_profile o) = true ->
  validate_order o = MkResult true None None None.
Proof.
  unfold validate_order. intros Hlines ->.
  destruct (lines (cart o)); [contradiction|reflexivity].
Qed.

(** C7. [validate_order()] reports [{success: false, message}] when the
    cart has no line, whatever the address, and when the address is
    missing or empty, whatever the cart; it succeeds otherwise. *)
Theorem validate_order_spec (o : OrderPlacement) :
  (lines (cart o) = [] ->
   success (validate_order o) = false
   /\ is_Some (message (validate_order o)))
  /\ (delivery_address (user_profile o) = None
      \/ delivery_address (user_profile o) = Some "" ->
      success (validate_order o) = false
      /\ is_Some (message (validate_order o)))
  /\ (lines (cart o) <> [] ->
      (exists a, delivery_address (user_profile o) = Some a /\ a <> "") ->
      success (validate_order o) = true).
Proof.
  split; [|split].
  - intros Hlines. rewrite (validate_order_empty_cart o Hlines). cbn. eauto.
  - intros Haddr. apply validate_order_no_address.
    unfold address_valid. destruct Haddr as [-> | ->]; reflexivity.
  - intros Hlines Haddr. apply address_valid_iff in Haddr.
    rewrite (validate_order_valid o Hlines Haddr). reflexivity.
Qed.

Lemma cart_subtotal_nonneg (c : Cart) :
  cart_wf c -> (0 <= cart_subtotal c)%Q.
Proof.
  intros [Hb _]. unfold cart_subtotal.
  induction Hb as [|l rest [Hq Hp] _ IH]; cbn [List.map fold_right].
  - apply Qle_refl.
  - replace 0%Q with (0 + 0)%Q by reflexivity.
    apply Qplus_le_compat; [|exact IH].
    unfold line_subtotal. apply Qmult_le_0_compat; [exact Hp|].
    replace 0%Q with (inject_Z 0) by reflexivity.
    rewrite <- Zle_Qle. lia.
Qed.

(** C6. For a cart whose subtotal is not negative, the totals of
    [proceed_to_checkout] are the cart's subtotal, a tax and a delivery
    fee with [total = subtotal + tax + delivery_fee]; all four amounts are
    non-negative; tax and fee are functions of the subtotal alone (the
    rate times the subtotal, and the flat fee), so two checkouts with the
    same subtotal have the same tax and the same fee. *)
Theorem checkout_totals (o : OrderPlacement) :
  (0 <= cart_subtotal (cart o))%Q ->
  let t := total_info (proceed_to_checkout o) in
  subtotal t = cart_subtotal (cart o)
  /\ total t = (subtotal t + tax t + delivery_fee t)%Q
  /\ ((0 <= subtotal t)%Q /\ (0 <= tax t)%Q
      /\ (0 <= delivery_fee t)%Q /\ (0 <= total t)%Q)
  /\ (tax t = (tax_rate * subtotal t)%Q /\ delivery_fee t = flat_delivery_fee)
  /\ forall o' : OrderPlacement,
       cart_subtotal (cart o') = cart_subtotal (cart o) ->
       tax (total_info (proceed_to_checkout o')) = tax t
       /\ delivery_fee (total_info (proceed_to_checkout o')) = delivery_fee t.
Proof.
  intros Hsub. cbv zeta.
  cbn [proceed_to_checkout total_info totals_of subtotal tax delivery_fee total].
  pose proof tax_rate_nonneg as Hrate.
  pose proof flat_delivery_fee_nonneg as Hfee.
  assert (Htax : (0 <= tax_rate * cart_subtotal (cart o))%Q)
    by (apply Qmult_le_0_compat; assumption).
  repeat split; try assumption.
  - replace 0%Q with (0 + 0 + 0)%Q by reflexivity.
    repeat apply Qplus_le_compat; assumption.
  - congruence.
Qed.

(** C5. In the minimal flow (no payment collaborator) with a cart that
    has a line and a delivery address that is present and not empty,
    [confirm_order] succeeds: the result has [success] true, an order
    identifier, an estimated delivery and the message "Order confirmed",
    and one record, with that identifier and the names of the cart's
    lines, is appended to the order history of the profile. *)
Theorem confirm_order_minimal_flow (o : OrderPlacement) (now : Z)
    (payment_method : PaymentMethod) (payment_details : option dict) :
  lines (cart o) <> [] ->
  (exists a, delivery_address (user_profile o) = Some a /\ a <> "") ->
  payment_processing o = None ->
  let r := fst (confirm_order o now payment_method payment_details) in
  let o' := snd (confirm_order o now payment_method payment_details) in
  success r = true
  /\ message r = Some "Order confirmed"
  /\ is_Some (order_id r)
  /\ is_Some (estimated_delivery r)
  /\ exists rec : OrderRecord,
       order_history (user_profile o')
       = (order_history (user_profile o) ++ [rec])%list
       /\ order_id r = Some (record_id rec)
       /\ record_items rec = List.map name (lines (cart o))
       /\ record_total rec = total (total_info (proceed_to_checkout o)).
Proof.
  intros Hlines Haddr Hpay. cbv zeta. unfold confirm_order.
  apply address_valid_iff in Haddr.
  rewrite (validate_order_valid o Hlines Haddr), Hpay.
  cbn [negb fst snd success message order_id estimated_delivery
       user_profile order_history].
  repeat split; eauto.
Qed.

End OrderPlacementProperties.

Lemma validate_order_spec_witness :
  success (@validate_order sample_policy empty_order) = false
  /\ is_Some (message (@validate_order sample_policy empty_order)).
Proof.
  apply (proj1 (@validate_order_spec sample_policy empty_order)).
  reflexivity.
Defined.

Lemma checkout_totals_witness :
  subtotal (total_info (@proceed_to_checkout sample_policy sample_order))
  = cart_subtotal (cart sample_order).
Proof.
  refine (proj1 (@checkout_totals sample_policy sample_order _)).
  vm_compute. discriminate.
Defined.

(** End-to-end scenario 2 of the specification, under the sample policy. *)
Example scenario_burger_checkout :
  total_info (@proceed_to_checkout sample_policy sample_order)
  = MkTotals (16 # 1) (16 # 10) 5 ((16 # 1) + (16 # 10) + 5)%Q.
Proof. reflexivity. Qed.

Lemma confirm_order_minimal_flow_witness :
  success (fst (@confirm_order sample_policy sample_order 0
                  PaymentMethod_init None)) = true.
Proof.
  refine (proj1 (@confirm_order_minimal_flow sample_policy sample_order 0
                   PaymentMethod_init None _ _ _)).
  - discriminate.
  - exists "123 Main St". split; [reflexivity | discriminate].
  - reflexivity.
Defined.

(** The system test [test_full_order_flow], under the sample policy. *)
Example test_full_order_flow :
  fst (@confirm_order sample_policy
         (OrderPlacement_init (snd (add_item Cart_init "Pizza" (10 # 1) 2))
            (UserProfile_init "123 Elm St") (MkMenu ["Pizza"; "Burger"]))
         0 PaymentMethod_init None)
  = MkResult true (Some "Order confirmed") (Some 1%Z) (Some 30%Z).
Proof. reflexivity. Qed.

(** ** The unit tests of [testPayment_Processing.py] *)

Example test_validate_payment_method_success :
  validate_payment_method PaymentProcessing_default "credit_card"
    {[ "card_number" := VStr "1234567812345678";
       "expiry_date" := VStr "12/25"; "cvv" := VStr "123" ]}
  = Return true.
Proof. vm_compute. reflexivity. Qed.

Example test_validate_payment_method_invalid_gateway :
  validate_payment_method PaymentProcessing_default "bitcoin"
    {[ "card_number" := VStr "1234567812345678";
       "expiry_date" := VStr "12/25"; "cvv" := VStr "123" ]}
  = Raise (ValueError "Invalid payment method").
Proof. vm_compute. reflexivity. Qed.

Example test_validate_credit_card_invalid_details :
  validate_credit_card
    {[ "card_number" := VStr "1234";
       "expiry_date" := VStr "12/25"; "cvv" := VStr "12" ]}
  = Return false.
Proof. vm_compute. reflexivity. Qed.

Example test_process_payment_failure :
  fst (process_payment
         (PaymentProcessing_init
            (Stub {[ "status" := "failure"; "message" := "Card declined" ]}))
         {[ "total_amount" := float_100 ]} "credit_card"
         {[ "card_number" := VStr "1111222233334444";
            "expiry_date" := VStr "12/25"; "cvv" := VStr "123" ]})
  = Return "Payment failed: Card declined".
Proof. vm_compute. reflexivity. Qed.

Example test_successful_credit_card_payment :
  fst (process_payment PaymentProcessing_default
         {[ "total_amount" := float_50 ]} "credit_card"
         {[ "card_number" := VStr "1234567812345678" ]})
  = Return "Payment successful, Order confirmed".
Proof. vm_compute. reflexivity. Qed.

Example test_declined_credit_card_payment :
  fst (process_payment PaymentProcessing_default
         {[ "total_amount" := float_50 ]} "credit_card"
         {[ "card_number" := VStr "1111222233334444" ]})
  = Return "Payment failed: Card declined".
Proof. vm_compute. reflexivity. Qed.

Example test_unsupported_payment_method :
  fst (process_payment PaymentProcessing_default
         {[ "total_amount" := float_50 ]} "bitcoin" ∅)
  = Return "Error: Invalid payment method".
Proof. vm_compute. reflexivity. Qed.

(** A card number given as an integer has no length. *)
Example validate_credit_card_integer_number :
  validate_credit_card
    {[ "card_number" := VInt 1234567812345678;
       "expiry_date" := VStr "12/25"; "cvv" := VStr "123" ]}
  = Raise (TypeError "object of type 'int' has no len()").
Proof. vm_compute. reflexivity. Qed.

(** * Further properties of the payment code *)

(** ** The outcomes of the fake gateway *)

(** X1. [FakePaymentGateway.process] never raises and leaves the object as
    it is; its outcome is either a success with a transaction identifier
    and no message, or a failure with a message and no transaction
    identifier; and it is a success exactly for "paypal" and for
    "credit_card" with a card number other than the reserved one. *)
Theorem fake_gateway_outcome_shape (self : FakePaymentGateway)
    (m : string) (details : dict) (amount : value) :
  exists r : outcome,
    process self m details amount = (Return r, self)
    /\ ((r !! "status" = Some "success"
         /\ is_Some (r !! "transaction_id") /\ r !! "message" = None)
        \/ (r !! "status" = Some "failure"
            /\ is_Some (r !! "message") /\ r !! "transaction_id" = None))
    /\ (r !! "status" = Some "success"
        <-> (m = "credit_card"
             /\ details !! "card_number" <> Some (VStr "1111222233334444"))
            \/ m = "paypal").
Proof.
  unfold process, FakePaymentGateway_gateway, FakePaymentGateway_process.
  pose proof (card_number_declined details) as Hcard.
  unfold declined_card in Hcard.
  destruct (String.eqb_spec m "credit_card") as [->|Hcc].
  - destruct (eq_str _ _) eqn:E; eexists; (split; [reflexivity|]).
    + assert (Hd : details !! "card_number" = Some (VStr "1111222233334444"))
        by (apply Hcard; reflexivity).
      split; [right; vm_compute; eauto|].
      split; [vm_compute; discriminate|].
      intros [[_ Hne]|Hp]; [contradiction|discriminate].
    + assert (Hd : details !! "card_number" <> Some (VStr "1111222233334444"))
        by (intros Hd; apply Hcard in Hd; congruence).
      split; [left; vm_compute; eauto|].
      split; [auto|vm_compute; reflexivity].
  - destruct (String.eqb_spec m "paypal") as [->|Hpp];
      eexists; (split; [reflexivity|]).
    + split; [left; vm_compute; eauto|].
      split; [auto|vm_compute; reflexivity].
    + split; [right; vm_compute; eauto|].
      split; [vm_compute; discriminate|].
      intros [[Hm _]|Hm]; contradiction.
Qed.

(** ** What [process_payment] can answer *)

Lemma payment_message_not_error (response : outcome) :
  payment_message response <> Return "Error: Invalid payment method".
Proof.
  unfold payment_message.
  destruct (response !! "status") as [status|]; [|discriminate].
  destruct (String.eqb status "success"); [discriminate|].
  destruct (response !! "message") as [msg|]; discriminate.
Qed.

Lemma py_len_raises (v : value) (e : exn) :
  py_len v = Raise e -> exists msg, e = TypeError msg.
Proof. destruct v; cbn; intros [= <-]; eauto. Qed.

Lemma validate_credit_card_raises (details : dict) (e : exn) :
  validate_credit_card details = Raise e -> exists msg, e = TypeError msg.
Proof.
  unfold validate_credit_card.
  destruct (negb (fields_filled details required_fields)); [discriminate|].
  destruct (py_len (dict_get details "card_number" _)) as [n|e1] eqn:E1;
    cbn [mbind pyres_bind].
  - destruct (negb (n =? 16)%nat); [discriminate|].
    destruct (py_len (dict_get details "cvv" _)) as [k|e2] eqn:E2;
      cbn [mbind pyres_bind].
    + destruct (negb (k =? 3)%nat); discriminate.
    + intros [= <-]. exact (py_len_raises _ _ E2).
  - intros [= <-]. exact (py_len_raises _ _ E1).
Qed.

Lemma validate_payment_method_invalid_iff {G} (g : G) (m : string)
    (details : dict) :
  validate_payment_method (PaymentProcessing_init g) m details
  = Raise (ValueError "Invalid payment method")
  <-> m ∉ ["credit_card"; "paypal"].
Proof.
  unfold validate_payment_method.
  cbn [available_gateways PaymentProcessing_init].
  destruct (decide (m ∈ ["credit_card"; "paypal"])) as [Hm|Hm].
  - rewrite (bool_decide_eq_true_2 _ Hm). cbn [negb].
    split; [|contradiction]. intros Hr. exfalso.
    destruct (String.eqb m "credit_card"); [|discriminate].
    destruct (validate_credit_card details) as [[|]|e] eqn:E;
      cbn in Hr; try discriminate.
    destruct (validate_credit_card_raises _ _ E) as [msg ->]. discriminate.
  - rewrite (bool_decide_eq_false_2 _ Hm). cbn [negb]. tauto.
Qed.

(** X2. [validate_payment_method] and [process_payment] reject the same
    methods, whatever the gateway, the order and the details: the first
    raises "Invalid payment method" exactly when the second returns
    "Error: Invalid payment method". No answer of a gateway is mapped to
    that error text. *)
Theorem method_rejection_agrees {G} `{Gateway G} (g : G)
    (order : dict) (m : string) (details : dict) :
  validate_payment_method (PaymentProcessing_init g) m details
  = Raise (ValueError "Invalid payment method")
  <-> fst (process_payment (PaymentProcessing_init g) order m details)
      = Return "Error: Invalid payment method".
Proof.
  rewrite validate_payment_method_invalid_iff.
  destruct (decide (m ∈ ["credit_card"; "paypal"])) as [Hm|Hm].
  - split; [contradiction|]. intros Hr. exfalso.
    rewrite process_payment_supported in Hr by exact Hm.
    cbn [fst] in Hr.
    destruct (fst (process _ _ _ _)) as [r|e]; cbn in Hr; [|discriminate].
    exact (payment_message_not_error r Hr).
  - rewrite process_payment_unsupported by exact Hm. tauto.
Qed.

(** X3. The exceptions of [process_payment], for any gateway: it raises
    [e] exactly when the method is supported and either the gateway raised
    [e], or its outcome has no status and [e] is [KeyError('status')], or
    its outcome has a status other than "success" and no message and [e]
    is [KeyError('message')]. In particular an exception of the gateway
    is not caught. *)
Theorem process_payment_raises_iff {G} `{Gateway G} (g : G)
    (order : dict) (m : string) (details : dict) (e : exn) :
  let answer :=
    fst (process g m details (dict_get order "total_amount" (VInt 0))) in
  fst (process_payment (PaymentProcessing_init g) order m details) = Raise e
  <-> m ∈ ["credit_card"; "paypal"]
      /\ (answer = Raise e
          \/ exists r : outcome, answer = Return r
               /\ ((r !! "status" = None /\ e = KeyError "status")
                   \/ (exists status, r !! "status" = Some status
                         /\ status <> "success"
                         /\ r !! "message" = None
                         /\ e = KeyError "message"))).
Proof.
  cbv zeta.
  destruct (decide (m ∈ ["credit_card"; "paypal"])) as [Hm|Hm].
  - rewrite process_payment_supported by exact Hm.
    cbn [fst gateway PaymentProcessing_init].
    destruct (fst (process _ _ _ _)) as [r|e'] eqn:E; cbn [mbind pyres_bind].
    + unfold payment_message.
      destruct (r !! "status") as [status|] eqn:Es.
      * destruct (String.eqb_spec status "success") as [->|Hne].
        -- split; [discriminate|].
           intros [_ [?|[r' [[= <-] [[? _]|[st [? [? _]]]]]]]]; congruence.
        -- destruct (r !! "message") as [msg|] eqn:Em.
           ++ split; [discriminate|].
              intros [_ [?|[r' [[= <-] [[? _]|[st [? [? [? _]]]]]]]]];
                congruence.
           ++ split.
              ** intros [= <-]. split; [exact Hm|]. right. exists r.
                 split; [reflexivity|]. right. exists status. auto.
              ** intros [_ [?|[r' [[= <-] [[? _]|[st [? [? [? ->]]]]]]]]];
                   congruence.
      * split.
        -- intros [= <-]. split; [exact Hm|]. right. exists r.
           split; [reflexivity|]. left. auto.
        -- intros [_ [?|[r' [[= <-] [[_ ->]|[st [? _]]]]]]]; congruence.
    + split.
      * intros [= <-]. auto.
      * intros [_ [[= <-]|[r' [? _]]]]; [reflexivity|discriminate].
  - rewrite process_payment_unsupported by exact Hm. cbn [fst].
    split; [discriminate|]. intros [? _]. contradiction.
Qed.

(** X4. With the default gateway [process_payment] never raises and
    answers with one of three texts; the fake gateway's "Unsupported
    payment method" is never reached through it. *)
Theorem process_payment_default_answers (order : dict) (m : string)
    (details : dict) :
  let answer := fst (process_payment PaymentProcessing_default order m details) in
  (answer = Return "Error: Invalid payment method"
   \/ answer = Return "Payment successful, Order confirmed"
   \/ answer = Return "Payment failed: Card declined")
  /\ answer <> Return "Payment failed: Unsupported payment method".
Proof.
  cbv zeta.
  destruct (decide (m ∈ ["credit_card"; "paypal"])) as [Hm|Hm].
  - apply elem_of_cons in Hm as [->|Hm].
    + rewrite process_payment_credit_card.
      destruct (eq_str _ _); split; auto; discriminate.
    + apply elem_of_cons in Hm as [->|Hm]; [|inversion Hm].
      rewrite process_payment_paypal. split; auto; discriminate.
  - unfold PaymentProcessing_default.
    rewrite process_payment_unsupported by exact Hm.
    split; auto; discriminate.
Qed.

(** X5. With the default gateway the answer of [process_payment] depends
    on the method and on the card number alone: the order (and so the
    amount) and every other entry of the details are not looked at. *)
Theorem process_payment_default_card_only (order1 order2 : dict) (m : string)
    (details1 details2 : dict) :
  details1 !! "card_number" = details2 !! "card_number" ->
  process_payment PaymentProcessing_default order1 m details1
  = process_payment PaymentProcessing_default order2 m details2.
Proof.
  intros Hcard. unfold PaymentProcessing_default.
  destruct (decide (m ∈ ["credit_card"; "paypal"])) as [Hm|Hm].
  - rewrite !process_payment_supported by exact Hm.
    cbn [gateway PaymentProcessing_init process FakePaymentGateway_gateway
         fst snd].
    unfold FakePaymentGateway_process, dict_get. rewrite Hcard. reflexivity.
  - rewrite !process_payment_unsupported by exact Hm. reflexivity.
Qed.

Lemma process_payment_default_card_only_witness :
  process_payment PaymentProcessing_default
    {[ "total_amount" := float_50 ]} "credit_card"
    {[ "card_number" := VStr "1111222233334444" ]}
  = process_payment PaymentProcessing_default
      ∅ "credit_card"
      {[ "card_number" := VStr "1111222233334444";
         "expiry_date" := VStr "12/25"; "cvv" := VStr "123" ]}.
Proof.
  apply process_payment_default_card_only.
  vm_compute. reflexivity.
Defined.

(** ** What [validate_credit_card] looks at *)

Lemma fields_filled_ext (d1 d2 : dict) (fields : list string) :
  (forall f, f ∈ fields -> d1 !! f = d2 !! f) ->
  fields_filled d1 fields = fields_filled d2 fields.
Proof.
  induction fields as [|field rest IH]; intros Hsame; [reflexivity|].
  cbn [fields_filled]. rewrite (Hsame field) by (apply elem_of_cons; auto).
  rewrite IH; [reflexivity|].
  intros f Hf. apply Hsame. apply elem_of_cons. auto.
Qed.

(** X6. [validate_credit_card] reads the three required fields and
    nothing else: two dictionaries that agree on "card_number",
    "expiry_date" and "cvv" get the same answer (or the same exception),
    so adding, changing or removing any other key changes nothing. *)
Theorem validate_credit_card_fields_only (details1 details2 : dict) :
  (forall f, f ∈ required_fields -> details1 !! f = details2 !! f) ->
  validate_credit_card details1 = validate_credit_card details2.
Proof.
  intros Hsame. unfold validate_credit_card, dict_get.
  rewrite (fields_filled_ext _ _ _ Hsame).
  rewrite (Hsame "card_number"), (Hsame "cvv");
    [reflexivity| |]; unfold required_fields; rewrite !elem_of_cons; auto.
Qed.

Lemma validate_credit_card_fields_only_witness :
  validate_credit_card
    (<["cardholder" := VStr "A. Customer"]>
       {[ "card_number" := VStr "1234567812345678";
          "expiry_date" := VStr "12/25"; "cvv" := VStr "123" ]})
  = validate_credit_card
      {[ "card_number" := VStr "1234567812345678";
         "expiry_date" := VStr "12/25"; "cvv" := VStr "123" ]}.
Proof.
  apply validate_credit_card_fields_only.
  intros f Hf. apply lookup_insert_ne. intros <-.
  unfold required_fields in Hf.
  repeat (apply elem_of_cons in Hf as [Hf|Hf]; [discriminate|]).
  inversion Hf.
Defined.

Lemma py_len_cases (v : value) :
  (exists s, v = VStr s /\ py_len v = Return (String.length s))
  \/ ((forall s, v <> VStr s) /\ py_len v = Raise (len_error v)).
Proof.
  destruct v; try (right; split; [discriminate|reflexivity]).
  left. eauto.
Qed.

(** X7. The exceptions of [validate_credit_card]. It raises [e] exactly
    when all three fields are present with a true truth value and either
    [len] of the card number raises [e], or [len] of the card number is
    16 and [len] of the CVV raises [e]: the only exceptions are those of
    the two calls of [len]. An absent field or one with a false truth
    value gives [False], and a card number whose [len] is not 16 gives
    [False] before [len] of the CVV is taken. *)
Theorem validate_credit_card_raises_iff (details : dict) (e : exn) :
  let filled :=
    forall f, f ∈ required_fields ->
      exists v, details !! f = Some v /\ truthy v = true in
  (validate_credit_card details = Raise e
   <-> filled
       /\ ((exists c, details !! "card_number" = Some c
              /\ py_len c = Raise e)
           \/ (exists c v, details !! "card_number" = Some c
                 /\ py_len c = Return 16%nat
                 /\ details !! "cvv" = Some v
                 /\ py_len v = Raise e)))
  /\ (~ filled -> validate_credit_card details = Return false)
  /\ (forall c n, details !! "card_number" = Some c ->
        py_len c = Return n -> n <> 16%nat ->
        validate_credit_card details = Return false).
Proof.
  cbv zeta. pose proof (fields_filled_spec details required_fields) as Hspec.
  unfold validate_credit_card, dict_get.
  destruct (fields_filled details required_fields) eqn:Efill; cbn [negb].
  - assert (Hfilled : forall f, f ∈ required_fields ->
              exists v, details !! f = Some v /\ truthy v = true)
      by (apply Hspec; reflexivity).
    destruct (Hfilled "card_number") as [c [Hc _]];
      [unfold required_fields; rewrite !elem_of_cons; auto|].
    destruct (Hfilled "cvv") as [v [Hv _]];
      [unfold required_fields; rewrite !elem_of_cons; auto|].
    rewrite Hc, Hv. cbn [default from_option id].
    split; [|split].
    + destruct (py_len c) as [n|e1] eqn:Ec; cbn [mbind pyres_bind].
      * destruct (Nat.eqb_spec n 16) as [->|E16]; cbn [negb].
        -- destruct (py_len v) as [k|e2] eqn:Ev; cbn [mbind pyres_bind].
           ++ split.
              ** destruct (negb _); discriminate.
              ** intros [_ [[c' [[= <-] Hr]]|[c' [v' [_ [_ [[= <-] Hr]]]]]]];
                   congruence.
           ++ split.
              ** intros [= <-]. split; [exact Hfilled|]. right.
                 exists c, v. auto.
              ** intros [_ [[c' [[= <-] Hr]]|[c' [v' [_ [_ [[= <-] Hr]]]]]]];
                   congruence.
        -- split; [discriminate|].
           intros [_ [[c' [[= <-] Hr]]|[c' [v' [[= <-] [Hr _]]]]]];
             congruence.
      * split.
        -- intros [= <-]. split; [exact Hfilled|]. left. exists c. auto.
        -- intros [_ [[c' [[= <-] Hr]]|[c' [v' [[= <-] [Hr _]]]]]];
             congruence.
    + intros Hnot. contradiction.
    + intros c' n [= <-] Hn Hne. rewrite Hn. cbn [mbind pyres_bind].
      destruct (Nat.eqb_spec n 16); [contradiction|reflexivity].
  - assert (Hnot : ~ (forall f, f ∈ required_fields ->
              exists v, details !! f = Some v /\ truthy v = true))
      by (intros Hf; apply Hspec in Hf; discriminate).
    split; [|split].
    + split; [discriminate|]. intros [Hf _]. contradiction.
    + reflexivity.
    + reflexivity.
Qed.

(** * Properties of the managers and of the order tracker *)

(** ** [AddressManager] *)

Lemma update_address_history (self : AddressManager.t) (a : string) :
  order_history (AddressManager.user_profile
                   (snd (AddressManager.update_address self a)))
  = order_history (AddressManager.user_profile self).
Proof.
  unfold AddressManager.update_address.
  destruct (String.eqb a ""); reflexivity.
Qed.

(** X8. [AddressManager.update_address] refuses exactly the empty text
    and then changes nothing. After any run of calls the address is the
    last non-empty text given, or the former address when there was
    none, so an address that is present and not empty stays so; the
    order history is never touched. *)
Theorem update_address_last_filled (self : AddressManager.t)
    (addrs : list string) :
  let self' := AddressManager.update_all self addrs in
  (forall a, fst (AddressManager.update_address self a) = false
             <-> a = "")
  /\ (forall a, a = "" -> snd (AddressManager.update_address self a) = self)
  /\ AddressManager.get_address self'
     = List.last
         (List.map Some
            (List.filter (fun a => negb (String.eqb a "")) addrs))
         (AddressManager.get_address self)
  /\ order_history (AddressManager.user_profile self')
     = order_history (AddressManager.user_profile self)
  /\ ((exists a0, AddressManager.get_address self = Some a0 /\ a0 <> "") ->
      exists a, AddressManager.get_address self' = Some a /\ a <> "").
Proof.
  cbv zeta. split; [|split].
  - intros a. unfold AddressManager.update_address.
    destruct (String.eqb_spec a ""); cbn; split; congruence.
  - intros a ->. reflexivity.
  - revert self. induction addrs as [|a rest IH]; intros self.
    + cbn. auto.
    + change (AddressManager.update_all self (a :: rest))
        with (AddressManager.update_all
                (snd (AddressManager.update_address self a)) rest).
      destruct (IH (snd (AddressManager.update_address self a)))
        as [Hget [Hhist Hkeep]].
      rewrite Hget, Hhist, update_address_history.
      assert (Hlast :
        List.last
          (List.map Some
             (List.filter (fun a => negb (String.eqb a "")) rest))
          (AddressManager.get_address
             (snd (AddressManager.update_address self a)))
        = List.last
            (List.map Some
               (List.filter (fun a => negb (String.eqb a "")) (a :: rest)))
            (AddressManager.get_address self)).
      { cbn [List.filter]. unfold AddressManager.update_address.
        destruct (String.eqb a ""); cbn [negb snd List.map]; [reflexivity|].
        rewrite last_cons_default. reflexivity. }
      rewrite Hlast. split; [reflexivity|]. split; [reflexivity|].
      intros Hvalid. rewrite <- Hlast, <- Hget. apply Hkeep.
      unfold AddressManager.update_address.
      destruct (String.eqb_spec a "") as [->|Hne]; cbn [negb snd].
      * exact Hvalid.
      * exists a. split; [reflexivity|exact Hne].
Qed.

Lemma update_address_last_filled_witness :
  exists a,
    AddressManager.get_address
      (AddressManager.update_all
         (AddressManager.Mk (UserProfile_init "111 Old St"))
         ["222 New Ave"; ""]) = Some a
    /\ a <> "".
Proof.
  apply (proj2 (proj2 (proj2 (proj2
    (update_address_last_filled
       (AddressManager.Mk (UserProfile_init "111 Old St"))
       ["222 New Ave"; ""]))))).
  exists "111 Old St". split; [reflexivity|discriminate].
Defined.

(** The integration test [test_change_address_updates_order_placement],
    up to the call of [update_address]. *)
Example test_change_address :
  AddressManager.get_address
    (snd (AddressManager.update_address
            (AddressManager.Mk (UserProfile_init "111 Old St"))
            "222 New Ave"))
  = Some "222 New Ave".
Proof. reflexivity. Qed.

(** ** [OrderTracker] *)

Lemma index_statuses (s : string) (i : nat) :
  OrderTracker.index s OrderTracker.statuses = Some i ->
  (i = 0%nat /\ s = "Preparing")
  \/ (i = 1%nat /\ s = "On the Way")
  \/ (i = 2%nat /\ s = "Delivered").
Proof.
  unfold OrderTracker.statuses. cbn [OrderTracker.index].
  destruct (String.eqb_spec "Preparing" s) as [<-|_];
    [intros [= <-]; auto|].
  destruct (String.eqb_spec "On the Way" s) as [<-|_];
    [intros [= <-]; auto|].
  destruct (String.eqb_spec "Delivered" s) as [<-|_];
    [intros [= <-]; auto|].
  discriminate.
Qed.

Lemma index_not_in (s : string) (l : list string) :
  OrderTracker.index s l = None <-> s ∉ l.
Proof.
  induction l as [|y rest IH]; cbn [OrderTracker.index].
  - split; [intros _ Hin; inversion Hin|reflexivity].
  - rewrite not_elem_of_cons.
    destruct (String.eqb_spec y s) as [->|Hne].
    + split; [discriminate|]. intros [Hne _]. contradiction.
    + destruct (OrderTracker.index s rest) as [i|]; cbn.
      * split; [discriminate|]. intros [_ Hnot].
        apply IH in Hnot. discriminate.
      * split; [|reflexivity]. intros _. split; [congruence|].
        apply IH. reflexivity.
Qed.

(** One step from a known stage. *)
Lemma simulate_step (now : Z) (self : OrderTracker.t) (i : nat) :
  OrderTracker.index (OrderTracker.status self) OrderTracker.statuses = Some i ->
  let r := OrderTracker.simulate_order_progress now self in
  OrderTracker.index (OrderTracker.status (snd r)) OrderTracker.statuses
  = Some (Nat.min (i + 1) 2)
  /\ fst r = OrderTracker.Returned (i <? 2)%nat
  /\ (i = 2%nat -> snd r = self)
  /\ List.length (OrderTracker.status_history (snd r))
     = (List.length (OrderTracker.status_history self)
        + (Nat.min (i + 1) 2 - i))%nat.
Proof.
  intros Hi. cbv zeta. unfold OrderTracker.simulate_order_progress.
  rewrite Hi.
  destruct (index_statuses _ _ Hi) as [[-> Hs]|[[-> Hs]|[-> Hs]]];
    simpl; rewrite ?length_app; simpl; rewrite ?Hs;
    repeat split; try lia; try discriminate.
Qed.

(** X9. From a tracker whose status is one of the three stages, calls of
    [simulate_order_progress] walk through "Preparing", "On the Way",
    "Delivered" in this order and stop at "Delivered": after [n] calls
    from stage [i] the status is stage [min (i + n) 2], and the history
    has grown by one entry per stage passed, however many calls follow.
    A call at "Delivered" returns [False] and changes nothing, and the
    lookup [statuses[current_index + 1]] never leaves the list. *)
Theorem simulate_walks_stages (nows : list Z) (self : OrderTracker.t) (i : nat) :
  OrderTracker.index (OrderTracker.status self) OrderTracker.statuses = Some i ->
  let self' := OrderTracker.simulate_all nows self in
  let j := Nat.min (i + List.length nows) 2 in
  OrderTracker.statuses !! j = Some (OrderTracker.status self')
  /\ List.length (OrderTracker.status_history self')
     = (List.length (OrderTracker.status_history self) + (j - i))%nat
  /\ (forall now,
        OrderTracker.status self = "Delivered" ->
        OrderTracker.simulate_order_progress now self
        = (OrderTracker.Returned false, self))
  /\ (forall now,
        fst (OrderTracker.simulate_order_progress now self)
        <> OrderTracker.IndexError).
Proof.
  intros Hi. cbv zeta. split; [|split; [|split]].
  - revert self i Hi. induction nows as [|now rest IH]; intros self i Hi.
    + cbn [OrderTracker.simulate_all fold_left List.length].
      destruct (index_statuses _ _ Hi) as [[-> Hs]|[[-> Hs]|[-> Hs]]];
        rewrite Hs; reflexivity.
    + change (OrderTracker.simulate_all (now :: rest) self)
        with (OrderTracker.simulate_all rest
                (snd (OrderTracker.simulate_order_progress now self))).
      destruct (simulate_step now self i Hi) as [Hnext _].
      rewrite <- (IH _ _ Hnext). f_equal. cbn [List.length].
      destruct (index_statuses _ _ Hi) as [[-> _]|[[-> _]|[-> _]]]; lia.
  - revert self i Hi. induction nows as [|now rest IH]; intros self i Hi.
    + cbn [OrderTracker.simulate_all fold_left List.length].
      destruct (index_statuses _ _ Hi) as [[-> _]|[[-> _]|[-> _]]]; lia.
    + change (OrderTracker.simulate_all (now :: rest) self)
        with (OrderTracker.simulate_all rest
                (snd (OrderTracker.simulate_order_progress now self))).
      destruct (simulate_step now self i Hi) as [Hnext [_ [_ Hlen]]].
      rewrite (IH _ _ Hnext), Hlen. cbn [List.length].
      destruct (index_statuses _ _ Hi) as [[-> _]|[[-> _]|[-> _]]]; lia.
  - intros now Hs. unfold OrderTracker.simulate_order_progress.
    rewrite Hs. reflexivity.
  - intros now. destruct (simulate_step now self i Hi) as [_ [Hr _]].
    rewrite Hr. discriminate.
Qed.

Lemma simulate_walks_stages_witness :
  OrderTracker.statuses !! 2%nat
  = Some (OrderTracker.status
            (OrderTracker.simulate_all [5%Z; 9%Z; 12%Z]
               (OrderTracker.init 0 "ORD12346"))).
Proof.
  apply (proj1 (simulate_walks_stages [5%Z; 9%Z; 12%Z]
                  (OrderTracker.init 0 "ORD12346") 0 eq_refl)).
Defined.

(** X10. [update_status] takes any text, and a status outside the three
    stages blocks the progress: [simulate_order_progress] then ends in
    the [ValueError] of [statuses.index] and leaves the tracker as it
    is, whatever the tracker was before. *)
Theorem simulate_after_free_status (now now' : Z) (self : OrderTracker.t)
    (s : string) :
  s ∉ OrderTracker.statuses ->
  let self' := snd (OrderTracker.update_status now self s) in
  OrderTracker.status self' = s
  /\ OrderTracker.simulate_order_progress now' self'
     = (OrderTracker.NotInList s, self').
Proof.
  intros Hs. cbv zeta. split; [reflexivity|].
  unfold OrderTracker.simulate_order_progress.
  cbn [OrderTracker.update_status snd OrderTracker.status].
  rewrite (proj2 (index_not_in s OrderTracker.statuses) Hs). reflexivity.
Qed.

Lemma simulate_after_free_status_witness :
  fst (OrderTracker.simulate_order_progress 4
         (snd (OrderTracker.update_status 2
                 (OrderTracker.init 0 "ORD12345") "Update 1")))
  = OrderTracker.NotInList "Update 1".
Proof.
  refine (f_equal fst (proj2 (simulate_after_free_status 2 4
                                (OrderTracker.init 0 "ORD12345") "Update 1" _))).
  apply index_not_in. reflexivity.
Defined.

Lemma path_app (start : string) (h : list OrderTracker.change)
    (c : OrderTracker.change) (s : string) :
  OrderTracker.path start h = Some s ->
  OrderTracker.from c = s ->
  OrderTracker.path start (h ++ [c]) = Some (OrderTracker.to c).
Proof.
  revert start. induction h as [|d rest IH]; intros start; cbn.
  - intros [= <-] ->. rewrite String.eqb_refl. reflexivity.
  - destruct (String.eqb (OrderTracker.from d) start); [|discriminate].
    apply IH.
Qed.

Lemma update_status_invariant (now : Z) (self : OrderTracker.t) (s : string) :
  tracker_invariant self ->
  tracker_invariant (snd (OrderTracker.update_status now self s)).
Proof.
  intros [Hpath [Hint _]]. unfold tracker_invariant.
  cbn [OrderTracker.update_status snd OrderTracker.status_history
       OrderTracker.status OrderTracker.update_interval
       OrderTracker.last_update].
  split; [|split; [exact Hint|]].
  - exact (path_app _ _ (OrderTracker.MkChange (OrderTracker.status self) s now)
                    _ Hpath eq_refl).
  - intros c. rewrite List.map_app. cbn [List.map].
    rewrite List.last_last. intros [= <-]. auto.
Qed.

(** X11. The history of a tracker is a faithful log: for every tracker
    reached from the constructor by [update_status] and
    [simulate_order_progress], in any order and with any texts, the
    entries of [status_history] chain from "Preparing" to the current
    status (each entry starts where the one before ended), the last entry
    carries the time of [last_update], and [update_interval] is still
    10. *)
Theorem status_history_chains (self : OrderTracker.t) :
  OrderTracker.reachable self ->
  OrderTracker.path "Preparing" (OrderTracker.status_history self)
  = Some (OrderTracker.status self)
  /\ OrderTracker.update_interval self = 10%Z
  /\ (forall c, List.last (List.map Some (OrderTracker.status_history self)) None
                = Some c ->
                OrderTracker.timestamp c = OrderTracker.last_update self
                /\ OrderTracker.to c = OrderTracker.status self).
Proof.
  intros Hreach. change (tracker_invariant self).
  induction Hreach as [now oid|now self s _ IH|now self _ IH].
  - unfold tracker_invariant. cbn. repeat split; try discriminate.
  - apply update_status_invariant. exact IH.
  - unfold OrderTracker.simulate_order_progress.
    destruct (OrderTracker.index _ _) as [i|]; [|exact IH].
    destruct (_ <? _)%Z; [|exact IH].
    destruct (OrderTracker.statuses !! _) as [next|]; [|exact IH].
    apply update_status_invariant. exact IH.
Qed.

Lemma status_history_chains_witness :
  OrderTracker.path "Preparing"
    (OrderTracker.status_history
       (snd (OrderTracker.simulate_order_progress 7
               (snd (OrderTracker.update_status 3
                       (OrderTracker.init 0 "ORD1") "On the Way")))))
  = Some "Delivered".
Proof.
  refine (proj1 (status_history_chains _ _)).
  apply OrderTracker.reach_simulate, OrderTracker.reach_update,
    OrderTracker.reach_init.
Defined.

Lemma timedelta_seconds_range (a b : Z) :
  (0 <= timedelta_seconds a b < 86400)%Z.
Proof. unfold timedelta_seconds. apply Z.mod_pos_bound. lia. Qed.

(** X12. [check_update_frequency] compares the seconds field of the
    elapsed time, which leaves whole days out: the answer is the same
    after any number of further days, and within the first day after the
    last update it is [True] exactly while fewer than
    [update_interval + 1] seconds have passed. *)
Theorem check_update_frequency_wraps (now : Z) (self : OrderTracker.t) (k : Z) :
  OrderTracker.check_update_frequency (now + k * 86400000000) self
  = OrderTracker.check_update_frequency now self
  /\ ((0 <= now - OrderTracker.last_update self < 86400000000)%Z ->
      (OrderTracker.check_update_frequency now self = true
       <-> (now - OrderTracker.last_update self
            < (OrderTracker.update_interval self + 1) * 1000000)%Z)).
Proof.
  unfold OrderTracker.check_update_frequency, timedelta_seconds. split.
  - replace (now + k * 86400000000 - OrderTracker.last_update self)%Z
      with (now - OrderTracker.last_update self + (k * 86400) * 1000000)%Z
      by lia.
    rewrite Z.div_add by lia. rewrite Z.mod_add by lia. reflexivity.
  - intros Hday.
    set (d := (now - OrderTracker.last_update self)%Z) in *.
    assert (Hq : (0 <= d / 1000000 < 86400)%Z).
    { split; [apply Z.div_pos; lia|].
      apply Z.div_lt_upper_bound; lia. }
    rewrite Z.mod_small by exact Hq.
    rewrite Z.leb_le.
    pose proof (Z.div_mod d 1000000 ltac:(lia)) as Hdm.
    pose proof (Z.mod_pos_bound d 1000000 ltac:(lia)) as Hm.
    split; intros Hle; nia.
Qed.

Lemma check_update_frequency_wraps_witness :
  OrderTracker.check_update_frequency 5000000 (OrderTracker.init 0 "ORD1") = true
  <-> (5000000 - 0 < (10 + 1) * 1000000)%Z.
Proof.
  apply (proj2 (check_update_frequency_wraps 5000000
                  (OrderTracker.init 0 "ORD1") 0)).
  cbn. lia.
Defined.

(** A day and five seconds after the last update the check still
    passes. *)
Example check_update_frequency_next_day :
  OrderTracker.check_update_frequency (86400000000 + 5000000)
    (OrderTracker.init 0 "ORD1") = true.
Proof. reflexivity. Qed.

(** ** [OrderScheduler] *)

Section SchedulerProperties.
Variable strftime : string -> Z -> string.
Variable total_seconds : Z -> spec_float.
Variable format_2f : spec_float -> string.

Let schedule_order :=
  OrderScheduler.schedule_order strftime total_seconds format_2f.

(** X13. [schedule_order] accepts a delivery time exactly when it is
    later than the clock reading taken for the check. A refused call
    returns [success: False] with the message and changes nothing; an
    accepted call returns [success: True] and appends one order, created
    at that reading with status "Scheduled", and one confirmation
    time. *)
Theorem schedule_order_step (w : OrderScheduler.world) (self : OrderScheduler.t)
    (user_id : string) (items : list string) (delivery_time : Z) :
  let r := schedule_order w self user_id items delivery_time in
  (fst r !! "success" = Some (VBool true)
   <-> (OrderScheduler.current_time w < delivery_time)%Z)
  /\ ((delivery_time <= OrderScheduler.current_time w)%Z ->
      snd r = self
      /\ fst r !! "success" = Some (VBool false)
      /\ fst r !! "message" = Some (VStr "Delivery time must be in the future")
      /\ fst r !! "order_id" = None)
  /\ ((OrderScheduler.current_time w < delivery_time)%Z ->
      exists o,
        OrderScheduler.scheduled_orders (snd r)
        = (OrderScheduler.scheduled_orders self ++ [o])%list
        /\ OrderScheduler.confirmation_times (snd r)
           = (OrderScheduler.confirmation_times self
              ++ [total_seconds (OrderScheduler.confirmation_time w
                                 - OrderScheduler.start_time w)])%list
        /\ fst r !! "order_id" = Some (VStr (OrderScheduler.order_id o))
        /\ OrderScheduler.user_id o = user_id
        /\ OrderScheduler.items o = items
        /\ OrderScheduler.scheduled_time o = delivery_time
        /\ OrderScheduler.created_at o = OrderScheduler.current_time w
        /\ OrderScheduler.status o = "Scheduled").
Proof.
  cbv zeta. unfold schedule_order, OrderScheduler.schedule_order.
  destruct (Z.leb_spec delivery_time (OrderScheduler.current_time w)) as [Hle|Hlt].
  - cbn [fst snd]. split; [|split].
    + split; [intros Hs; vm_compute in Hs; discriminate | lia].
    + intros _. repeat split; reflexivity.
    + lia.
  - cbn [fst snd]. split; [|split].
    + split; [intros _; exact Hlt|intros _].
      rewrite lookup_insert_eq. reflexivity.
    + lia.
    + intros _. eexists. split; [reflexivity|]. split; [reflexivity|].
      split; [|repeat split; reflexivity].
      rewrite lookup_insert_ne by discriminate.
      rewrite lookup_insert_eq. reflexivity.
Qed.

(** X14. Whatever calls were made, a scheduler holds as many
    confirmation times as orders, and every order it holds has status
    "Scheduled", a delivery time later than its creation time, and an
    identifier that starts with "SCH". *)
Theorem scheduler_invariant (self : OrderScheduler.t) :
  OrderScheduler.reachable strftime total_seconds format_2f self ->
  List.length (OrderScheduler.confirmation_times self)
  = List.length (OrderScheduler.scheduled_orders self)
  /\ Forall (fun o =>
               OrderScheduler.status o = "Scheduled"
               /\ (OrderScheduler.created_at o
                   < OrderScheduler.scheduled_time o)%Z
               /\ String.prefix "SCH" (OrderScheduler.order_id o) = true)
            (OrderScheduler.scheduled_orders self).
Proof.
  induction 1 as [|w self user_id items delivery_time _ [IHlen IHall]].
  - split; [reflexivity|constructor].
  - unfold OrderScheduler.schedule_order.
    destruct (Z.leb_spec delivery_time (OrderScheduler.current_time w))
      as [Hle|Hlt]; cbn [snd]; [auto|].
    cbn [OrderScheduler.scheduled_orders OrderScheduler.confirmation_times].
    rewrite !length_app, IHlen. split; [reflexivity|].
    apply Forall_app. split; [exact IHall|].
    constructor; [|constructor].
    cbn [OrderScheduler.status OrderScheduler.created_at
         OrderScheduler.scheduled_time OrderScheduler.order_id].
    repeat split; [exact Hlt|].
    apply prefix_spec. eexists. reflexivity.
Qed.

End SchedulerProperties.

Lemma schedule_order_step_witness :
  exists o,
    OrderScheduler.scheduled_orders
      (snd (OrderScheduler.schedule_order
              (fun _ _ => "") (fun _ => S754_zero false) (fun _ => "")
              (OrderScheduler.MkWorld 0 1 900000 4242) OrderScheduler.init
              "USER123" ["Burger"; "Fries"] 7200000000))
    = ([] ++ [o])%list
    /\ OrderScheduler.order_id o = "SCH4242".
Proof.
  destruct (proj2 (proj2
    (schedule_order_step (fun _ _ => "") (fun _ => S754_zero false) (fun _ => "")
       (OrderScheduler.MkWorld 0 1 900000 4242) OrderScheduler.init
       "USER123" ["Burger"; "Fries"] 7200000000)) ltac:(cbn; lia))
    as [o [Ho _]].
  exists o. split; [exact Ho|].
  cbn in Ho. injection Ho as <-. reflexivity.
Defined.

Lemma scheduler_invariant_witness :
  let accepted :=
    snd (OrderScheduler.schedule_order
           (fun _ _ => "") (fun _ => S754_zero false) (fun _ => "")
           (OrderScheduler.MkWorld 0 1 900000 4242) OrderScheduler.init
           "USER123" ["Burger"; "Fries"] 7200000000) in
  let self :=
    snd (OrderScheduler.schedule_order
           (fun _ _ => "") (fun _ => S754_zero false) (fun _ => "")
           (OrderScheduler.MkWorld 1000000 1000001 1900000 1234) accepted
           "USER123" ["Pizza"] 0) in
  List.length (OrderScheduler.scheduled_orders self) = 1%nat
  /\ List.length (OrderScheduler.confirmation_times self)
     = List.length (OrderScheduler.scheduled_orders self)
  /\ Forall (fun o =>
               OrderScheduler.status o = "Scheduled"
               /\ (OrderScheduler.created_at o
                   < OrderScheduler.scheduled_time o)%Z
               /\ String.prefix "SCH" (OrderScheduler.order_id o) = true)
            (OrderScheduler.scheduled_orders self).
Proof.
  cbv zeta. split; [reflexivity|].
  apply (scheduler_invariant
           (fun _ _ => "") (fun _ => S754_zero false) (fun _ => "")).
  apply OrderScheduler.reach_schedule, OrderScheduler.reach_schedule,
    OrderScheduler.reach_init.
Defined.

Lemma pretty_four_digits (d : Z) :
  (1000 <= d <= 9999)%Z -> String.length (pretty d) = 4%nat.
Proof.
  intros Hd.
  assert (Hall : forallb (fun n => (String.length (pretty n) =? 4)%nat)
                         (seqZ 1000 9000) = true)
    by (vm_compute; reflexivity).
  rewrite forallb_forall in Hall.
  apply Nat.eqb_eq, Hall, list_elem_of_In, elem_of_seqZ. lia.
Qed.

(** X15. The identifier of a scheduled order is "SCH" followed by the
    four digits of the number drawn, seven characters in all; two
    accepted orders get the same identifier exactly when the same number
    was drawn, and [schedule_order] accepts the second one all the same:
    nothing keeps identifiers apart. *)
Theorem order_id_from_draw (strftime : string -> Z -> string)
    (total_seconds : Z -> spec_float) (format_2f : spec_float -> string)
    (w1 w2 : OrderScheduler.world) (self : OrderScheduler.t)
    (user1 user2 : string) (items1 items2 : list string) (time1 time2 : Z) :
  (1000 <= OrderScheduler.draw w1 <= 9999)%Z ->
  (OrderScheduler.current_time w1 < time1)%Z ->
  (OrderScheduler.current_time w2 < time2)%Z ->
  let r1 := OrderScheduler.schedule_order strftime total_seconds format_2f
              w1 self user1 items1 time1 in
  let r2 := OrderScheduler.schedule_order strftime total_seconds format_2f
              w2 (snd r1) user2 items2 time2 in
  (exists digits, fst r1 !! "order_id" = Some (VStr ("SCH" ++ digits))
                  /\ String.length digits = 4%nat
                  /\ digits = pretty (OrderScheduler.draw w1))
  /\ fst r2 !! "success" = Some (VBool true)
  /\ (fst r1 !! "order_id" = fst r2 !! "order_id"
      <-> OrderScheduler.draw w1 = OrderScheduler.draw w2).
Proof.
  intros Hd H1 H2. cbv zeta. unfold OrderScheduler.schedule_order.
  rewrite (proj2 (Z.leb_gt _ _) H1), (proj2 (Z.leb_gt _ _) H2).
  cbn [fst snd OrderScheduler.order_id].
  rewrite !(lookup_insert_ne _ "success" "order_id") by discriminate.
  rewrite !lookup_insert_eq.
  split; [|split].
  - eexists. split; [reflexivity|]. split; [|reflexivity].
    apply pretty_four_digits. exact Hd.
  - reflexivity.
  - split.
    + intros [= Heq]. apply (inj pretty). exact Heq.
    + intros ->. reflexivity.
Qed.

Lemma order_id_from_draw_witness :
  fst (OrderScheduler.schedule_order
         (fun _ _ => "") (fun _ => S754_zero false) (fun _ => "")
         (OrderScheduler.MkWorld 0 1 900000 4242)
         (snd (OrderScheduler.schedule_order
                 (fun _ _ => "") (fun _ => S754_zero false) (fun _ => "")
                 (OrderScheduler.MkWorld 0 1 900000 4242) OrderScheduler.init
                 "USER1" ["Burger"] 5))
         "USER2" ["Pizza"] 9) !! "success"
  = Some (VBool true).
Proof.
  refine (proj1 (proj2
    (order_id_from_draw (fun _ _ => "") (fun _ => S754_zero false) (fun _ => "")
       (OrderScheduler.MkWorld 0 1 900000 4242)
       (OrderScheduler.MkWorld 0 1 900000 4242)
       OrderScheduler.init "USER1" "USER2" ["Burger"] ["Pizza"] 5 9 _ _ _)));
    cbn; lia.
Defined.

(** ** Several payments through one object *)

Lemma process_all_calls {G} `{Gateway G}
    (requests : list (dict * string * dict)) :
  forall self : PaymentProcessing (Spy G),
    available_gateways self = ["credit_card"; "paypal"] ->
    calls (gateway (snd (process_all self requests)))
    = (calls (gateway self)
       ++ List.map request_call (List.filter request_supported requests))%list
    /\ List.length (fst (process_all self requests)) = List.length requests.
Proof.
  induction requests as [|[[order m] details] rest IH]; intros self Hav.
  - cbn. rewrite app_nil_r. auto.
  - cbn [process_all].
    destruct (process_payment self order m details) as [r self'] eqn:Ep.
    assert (Hself' :
      available_gateways self' = ["credit_card"; "paypal"]
      /\ calls (gateway self')
         = (calls (gateway self)
            ++ (if request_supported (order, m, details)
                then [request_call (order, m, details)] else []))%list).
    { unfold request_supported. cbn [fst snd].
      destruct (decide (m ∈ ["credit_card"; "paypal"])) as [Hm|Hm].
      - rewrite (bool_decide_eq_true_2 _ Hm).
        rewrite process_payment_supported in Ep by (rewrite Hav; exact Hm).
        cbv zeta in Ep. rewrite spy_process in Ep. cbn [fst snd] in Ep.
        injection Ep as _ <-. cbn. auto.
      - rewrite (bool_decide_eq_false_2 _ Hm).
        rewrite process_payment_unsupported in Ep by (rewrite Hav; exact Hm).
        injection Ep as _ <-. rewrite app_nil_r. auto. }
    destruct Hself' as [Hav' Hcalls'].
    destruct (IH self' Hav') as [IHc IHl].
    destruct (process_all self' rest) as [rs self''].
    cbn [fst snd List.length List.filter] in *.
    rewrite IHc, Hcalls', IHl. split; [|reflexivity].
    destruct (request_supported (order, m, details));
      cbn [List.map]; rewrite <- app_assoc; reflexivity.
Qed.

(** X16. Over any run of payments through one [PaymentProcessing]
    object, the gateway is invoked for exactly the requests with a
    supported method, once each and in their order, with the method, the
    details and the order's total of each; requests with another method
    never reach it. Every request gets a result. *)
Theorem gateway_sees_supported_requests {G} `{Gateway G} (g : G)
    (requests : list (dict * string * dict)) :
  let run := process_all (PaymentProcessing_init (MkSpy g [])) requests in
  calls (gateway (snd run))
  = List.map request_call (List.filter request_supported requests)
  /\ List.length (fst run) = List.length requests.
Proof.
  cbv zeta.
  destruct (process_all_calls requests (PaymentProcessing_init (MkSpy g []))
              eq_refl) as [Hc Hl].
  split; [exact Hc|exact Hl].
Qed.

(** Three payments, the second with a method that is not supported. *)
Example gateway_sees_two_of_three :
  calls (gateway (snd (process_all
    (PaymentProcessing_init (MkSpy FakePaymentGateway_init []))
    [({[ "total_amount" := float_50 ]}, "paypal", ∅);
     ({[ "total_amount" := float_50 ]}, "bitcoin", ∅);
     (∅, "credit_card", {[ "card_number" := VStr "1111222233334444" ]})])))
  = [Call "paypal" ∅ float_50;
     Call "credit_card" {[ "card_number" := VStr "1111222233334444" ]} (VInt 0)].
Proof. vm_compute. reflexivity. Qed.

(** ** Instances of the properties *)

Lemma fake_gateway_outcome_shape_witness :
  exists r : outcome,
    process FakePaymentGateway_init "bitcoin" ∅ (VInt 0)
    = (Return r, FakePaymentGateway_init)
    /\ r !! "status" = Some "failure" /\ is_Some (r !! "message").
Proof.
  destruct (fake_gateway_outcome_shape FakePaymentGateway_init "bitcoin" ∅ (VInt 0))
    as [r [Hr [[[Hs _]|[Hs [Hm _]]] Hiff]]].
  - exfalso. apply Hiff in Hs. destruct Hs as [[Hs _]|Hs]; discriminate.
  - exists r. auto.
Defined.

Lemma method_rejection_agrees_witness :
  fst (process_payment (PaymentProcessing_init FakePaymentGateway_init)
         {[ "total_amount" := float_50 ]} "bitcoin" ∅)
  = Return "Error: Invalid payment method".
Proof.
  apply (proj1 (method_rejection_agrees FakePaymentGateway_init
                  {[ "total_amount" := float_50 ]} "bitcoin" ∅)).
  vm_compute. reflexivity.
Defined.

Lemma process_payment_raises_iff_witness :
  fst (process_payment
         (PaymentProcessing_init (Stub {[ "transaction_id" := "t1" ]}))
         ∅ "paypal" ∅)
  = Raise (KeyError "status").
Proof.
  apply (proj2 (process_payment_raises_iff
                  (Stub {[ "transaction_id" := "t1" ]}) ∅ "paypal" ∅
                  (KeyError "status"))).
  split.
  - apply elem_of_cons. right. apply elem_of_cons. left. reflexivity.
  - right. exists {[ "transaction_id" := "t1" ]}.
    split; [reflexivity|]. left. split; reflexivity.
Defined.

Lemma validate_credit_card_raises_iff_witness :
  validate_credit_card
    {[ "card_number" := VInt 1234567812345678;
       "expiry_date" := VStr "12/25"; "cvv" := VStr "123" ]}
  = Raise (len_error (VInt 1234567812345678)).
Proof.
  apply (proj2 (proj1 (validate_credit_card_raises_iff
    {[ "card_number" := VInt 1234567812345678;
       "expiry_date" := VStr "12/25"; "cvv" := VStr "123" ]}
    (len_error (VInt 1234567812345678))))).
  split.
  - intros f Hf. unfold required_fields in Hf.
    repeat (apply elem_of_cons in Hf as [->|Hf];
            [eexists; split; vm_compute; reflexivity|]).
    inversion Hf.
  - left. eexists. split; [vm_compute; reflexivity|]. reflexivity.
Defined.
